(** * ZenML steps: class construction, instantiation and invocation

    A shallow embedding of [src/zenml/steps/base_step.py]: the metaclass
    hook [BaseStepMeta.__new__], and the methods [__init__], [__call__] and
    [with_materializers] of [BaseStep].

    Python dictionaries whose iteration order is observable ([INPUT_SPEC],
    [OUTPUT_SPEC], [PARAM_SPEC], keyword arguments) are insertion-ordered
    association lists; the annotation table, which the code only reads with
    [get], is a [gmap].  Exceptions are values of [exn]; methods run in a
    state-and-exception monad over the objects they can reach. *)

From Stdlib Require Import ZArith Lia Ascii.
From stdpp Require Import base option list strings pretty gmap.

Set Warnings "-register-all,-clear-no-such-hyp".

Open Scope string_scope.
Open Scope list_scope.
Open Scope nat_scope.

(** ** Python objects *)

(** A class object: its qualified name and the names along its method
    resolution order (the class itself first). *)
Record pyclass := PyClass { cls_name : string; cls_mro : list string }.

#[global] Instance pyclass_eq_dec : EqDecision pyclass.
Proof. solve_decision. Defined.

(** Objects that a signature can carry as annotations. *)
Inductive pyobj :=
| ONone                                      (* [None] *)
| OClass (c : pyclass)                       (* a class object *)
| OOutput (items : list (string * pyobj))    (* an [Output] instance, by its items *)
| OOther (shown : string).                   (* any other object, by its [str] *)

(** Values that reach [__init__] as keyword arguments and the fields of
    configuration objects. *)
Inductive pyval :=
| VNone
| VBool (b : bool)
| VInt (z : Z)
| VList (l : list pyval)
| VInst (c : pyclass) (fields : list (string * pyval)).

(** Channels are the artifact handles that steps exchange. *)
Inductive channel := Channel (id : nat).

#[global] Instance channel_eq_dec : EqDecision channel.
Proof. solve_decision. Defined.

Inductive exn :=
| StepInterfaceError (msg : string)
| ValueError (msg : string)
| TypeError (msg : string)
| UnboundLocalError (msg : string)
| AssertionError (msg : string)
| AttributeError (msg : string)
| RuntimeError (msg : string)
| RecursionError (msg : string).

(** [except RuntimeError] catches the class and its subclasses. *)
Definition is_RuntimeError (e : exn) : bool :=
  match e with
  | RuntimeError _ | RecursionError _ => true
  | _ => false
  end.

Inductive result (A : Type) :=
| Ok (a : A)
| Raise (e : exn).
Arguments Ok {A} a.
Arguments Raise {A} e.

Definition BaseStepConfig_name : string := "zenml.steps.base_step_config.BaseStepConfig".
Definition BaseArtifact : pyclass :=
  PyClass "zenml.artifacts.base_artifact.BaseArtifact"
          ["zenml.artifacts.base_artifact.BaseArtifact"; "object"].

(** [issubclass(c, base)] on class objects. *)
Definition subclass_of (c : pyclass) (base : string) : bool :=
  bool_decide (base ∈ cls_mro c).

(** [issubclass(o, BaseStepConfig)]: a first argument that is not a class
    is a [TypeError]. *)
Definition issubclass_BaseStepConfig (o : pyobj) : result bool :=
  match o with
  | OClass c => Ok (subclass_of c BaseStepConfig_name)
  | _ => Raise (TypeError "issubclass() arg 1 must be a class")
  end.

(** [isinstance(v, BaseStepConfig)]. *)
Definition isinstance_BaseStepConfig (v : pyval) : bool :=
  match v with
  | VInst c _ => subclass_of c BaseStepConfig_name
  | _ => false
  end.

(** [str(o)] as the f-strings of the error messages insert it. *)
Definition py_str (o : pyobj) : string :=
  match o with
  | ONone => "None"
  | OClass c => "<class '" +:+ cls_name c +:+ "'>"
  | OOutput _ => "<zenml.steps.step_output.Output object>"
  | OOther s => s
  end.

(** [str] of a list of identifiers, as in [f"{list(d.keys())}"]. *)
Fixpoint py_str_items (l : list string) : string :=
  match l with
  | [] => ""
  | [x] => "'" +:+ x +:+ "'"
  | x :: r => "'" +:+ x +:+ "', " +:+ py_str_items r
  end.
Definition py_str_list (l : list string) : string := "[" +:+ py_str_items l +:+ "]".

(** The last character of a string. *)
Fixpoint last_char (s : string) : option ascii :=
  match s with
  | EmptyString => None
  | String a EmptyString => Some a
  | String _ r => last_char r
  end.

(** [sub in s]: the string [sub] occurs in the string [s]. *)
Definition occurs (sub s : string) : Prop :=
  ∃ before after, s = before +:+ sub +:+ after.

(** ** Insertion-ordered dictionaries *)

Definition odict (V : Type) := list (string * V).

Definition keys {V} (d : odict V) : list string := d.*1.

(** [d.update({k: v})]: an existing key keeps its position. *)
Fixpoint dict_update {V} (k : string) (v : V) (d : odict V) : odict V :=
  match d with
  | [] => [(k, v)]
  | (k', v') :: r =>
      if decide (k' = k) then (k', v) :: r else (k', v') :: dict_update k v r
  end.

(** [k in d]. *)
Definition dict_mem {V} (k : string) (d : odict V) : bool :=
  bool_decide (k ∈ keys d).

(** ** The state-and-exception monad *)

Definition M (St A : Type) : Type := St → result A * St.

Definition ret {St A} (a : A) : M St A := λ s, (Ok a, s).
Definition raise {St A} (e : exn) : M St A := λ s, (Raise e, s).
Definition bind {St A B} (m : M St A) (k : A → M St B) : M St B :=
  λ s, match m s with
       | (Ok a, s') => k a s'
       | (Raise e, s') => (Raise e, s')
       end.
Definition lift {St A} (r : result A) : M St A := λ s, (r, s).
Definition gets {St A} (f : St → A) : M St A := λ s, (Ok (f s), s).
Definition modify {St} (f : St → St) : M St unit := λ s, (Ok tt, f s).

Declare Scope py_scope.
Delimit Scope py_scope with py.
Notation "'let*' x ':=' m 'in' k" := (bind m (λ x, k))
  (at level 10, x name, m at level 100, k at level 200) : py_scope.
Notation "m ;; k" := (bind m (λ _, k))
  (at level 100, k at level 200, right associativity) : py_scope.
Open Scope py_scope.

(** [for x in l: body x], left at the first exception. *)
Fixpoint for_each {St A} (l : list A) (body : A → M St unit) : M St unit :=
  match l with
  | [] => ret tt
  | x :: r => body x ;; for_each r body
  end.

(** [try: m  except RuntimeError: raise e']. *)
Definition try_except_RuntimeError {St A} (m : M St A) (e' : exn) : M St A :=
  λ s, match m s with
       | (Raise e, s') => if is_RuntimeError e then (Raise e', s') else (Raise e, s')
       | r => r
       end.

(** ** Collaborators outside this module *)

Record Component := { outputs : gmap string channel }.

Inductive kwarg :=
| KArtifact (a : channel)
| KParam (s : string).

(** A component class, as the callable it is: keyword arguments in, a
    component or an exception out. *)
Definition component_class := odict kwarg → result Component.

(** The attributes that [BaseStepMeta.__new__] sets on a class. *)
Record step_class := StepClass {
  INPUT_SPEC : odict pyclass;
  OUTPUT_SPEC : odict pyclass;
  CONFIG : option pyobj
}.

(** The attributes that the methods of [BaseStep] set on an instance. *)
Record step := Step {
  materializers : option (odict pyclass);
  _BaseStep__component : option Component;
  PARAM_SPEC : odict string;
  _BaseStep__component_class : option component_class
}.

(** What the module imports: the materializer registry, the constant of
    [zenml.steps.utils], pydantic's [dict()], [json.dumps] and
    [generate_component]. *)
Class Collaborators := {
  is_registered : pyobj → bool;
  SINGLE_RETURN_OUT_NAME : string;
  model_dict : pyval → result (odict pyval);
  json_dumps : pyval → result string;
  generate_component : step_class → step → result component_class
}.

(** ** Signatures *)

(** [inspect.getfullargspec]: positional parameter names and the
    annotation table, which holds the return annotation under ["return"]. *)
Record FullArgSpec := {
  args : list string;
  annotations : gmap string pyobj
}.

Section Embedding.
Context `{Collaborators}.

(** *** Class construction: [BaseStepMeta.__new__] *)

Definition msg_one_config : string :=
  "Please only use one `BaseStepConfig` type object in your step.".

Definition msg_unclassified (arg_type : pyobj) (arg : string) : string :=
  "In a ZenML step, you can only pass in a `BaseStepConfig` or an arg type with a default materializer. You passed in "
  +:+ py_str arg_type +:+ " for paramaeter " +:+ arg
  +:+ ", which does not have a registered materializer.".

Definition msg_output_unregistered (ty : pyobj) (name : string) : string :=
  "In a ZenML step, you can only return  an arg type with a default materializer. You returned "
  +:+ py_str ty +:+ " as " +:+ name
  +:+ ", a type which does not have a default materializer.".

Definition msg_return_unregistered (ty : pyobj) : string :=
  "In a ZenML step, you can only return  an arg type with a default materializer. You returned a "
  +:+ py_str ty +:+ ", a type which does not have a default materializer.".

Definition set_CONFIG (c : option pyobj) (cls : step_class) : step_class :=
  StepClass (INPUT_SPEC cls) (OUTPUT_SPEC cls) c.

Definition update_INPUT_SPEC (k : string) (v : pyclass) (cls : step_class) : step_class :=
  StepClass (dict_update k v (INPUT_SPEC cls)) (OUTPUT_SPEC cls) (CONFIG cls).

Definition update_OUTPUT_SPEC (k : string) (v : pyclass) (cls : step_class) : step_class :=
  StepClass (INPUT_SPEC cls) (dict_update k v (OUTPUT_SPEC cls)) (CONFIG cls).

(** Remove the self from the signature if it exists. *)
Definition process_args (spec : FullArgSpec) : list string :=
  match args spec with
  | first :: rest => if decide (first = "self") then rest else first :: rest
  | [] => []
  end.

(** The annotation of a name, [None] when there is none. *)
Definition annotation (spec : FullArgSpec) (name : string) : pyobj :=
  default ONone (annotations spec !! name).

(** The body of [for arg in process_args]. *)
Definition classify_arg (spec : FullArgSpec) (arg : string) : M step_class unit :=
  let arg_type := annotation spec arg in
  let* is_config := lift (issubclass_BaseStepConfig arg_type) in
  if is_config : bool then
    let* config := gets CONFIG in
    match config with
    | Some _ => raise (StepInterfaceError msg_one_config)
    | None => modify (set_CONFIG (Some arg_type))
    end
  else if is_registered arg_type then
    modify (update_INPUT_SPEC arg BaseArtifact)
  else
    raise (StepInterfaceError (msg_unclassified arg_type arg)).

(** The body of [for return_tuple in return_spec.items()]. *)
Definition register_output (return_tuple : string * pyobj) : M step_class unit :=
  if is_registered return_tuple.2 then
    modify (update_OUTPUT_SPEC return_tuple.1 BaseArtifact)
  else
    raise (StepInterfaceError
             (msg_output_unregistered return_tuple.2 return_tuple.1)).

(** Infer the returned values. *)
Definition infer_returns (spec : FullArgSpec) : M step_class unit :=
  match annotation spec "return" with
  | ONone => ret tt
  | OOutput items => for_each items register_output
  | return_spec =>
      if is_registered return_spec then
        modify (update_OUTPUT_SPEC SINGLE_RETURN_OUT_NAME BaseArtifact)
      else
        raise (StepInterfaceError (msg_return_unregistered return_spec))
  end.

(** The statements of [__new__] after the class object exists. *)
Definition new_body (spec : FullArgSpec) : M step_class unit :=
  for_each (process_args spec) (classify_arg spec) ;;
  infer_returns spec.

(** [BaseStepMeta.__new__], given the signature of the class's [process]
    function: the class with its specs, or the exception raised. *)
Definition BaseStepMeta_new (spec : FullArgSpec) : result step_class :=
  match new_body spec (StepClass [] [] None) with
  | (Ok _, cls) => Ok cls
  | (Raise e, _) => Raise e
  end.

(** *** Instances: [BaseStep] *)

(** What a method of [BaseStep] can reach through [self]: the instance and
    its class. *)
Record frame := Frame { the_class : step_class; the_self : step }.

Definition set_materializers (m : option (odict pyclass)) (f : frame) : frame :=
  let s := the_self f in
  Frame (the_class f)
        (Step m (_BaseStep__component s) (PARAM_SPEC s) (_BaseStep__component_class s)).

Definition set_component (c : option Component) (f : frame) : frame :=
  let s := the_self f in
  Frame (the_class f)
        (Step (materializers s) c (PARAM_SPEC s) (_BaseStep__component_class s)).

Definition set_PARAM_SPEC (p : odict string) (f : frame) : frame :=
  let s := the_self f in
  Frame (the_class f)
        (Step (materializers s) (_BaseStep__component s) p (_BaseStep__component_class s)).

Definition set_component_class (c : option component_class) (f : frame) : frame :=
  let s := the_self f in
  Frame (the_class f)
        (Step (materializers s) (_BaseStep__component s) (PARAM_SPEC s) c).

Definition msg_only_keywords : string :=
  "When you are creating an instance of a step, please only use key-word arguments.".

Definition msg_cannot_serialize : string :=
  "You passed in a parameter that we cannot serialize!".

Definition msg_config_not_found : string :=
  "Could not find step config even though specified in signature.".

(** The interpreter's message for reading [config] before any assignment. *)
Definition msg_config_unbound : string :=
  "local variable 'config' referenced before assignment".

(** [{k: json.dumps(v) for k, v in model_dict.items()}], started from [acc]. *)
Fixpoint dumps_items (items : odict pyval) (acc : odict string) : result (odict string) :=
  match items with
  | [] => Ok acc
  | (k, v) :: r =>
      match json_dumps v with
      | Ok s => dumps_items r (dict_update k s acc)
      | Raise e => Raise e
      end
  end.

(** The loop [for v in kwargs.values()] of [__init__]; [config] is the local
    variable of that name, [None] while it is unbound. *)
Fixpoint find_config (vs : list pyval) (config : option pyval) : M frame unit :=
  match vs with
  | [] => ret tt
  | v :: rest =>
      let config := if isinstance_BaseStepConfig v then Some v else config in
      try_except_RuntimeError
        (let* c := match config with
                   | Some c => ret c
                   | None => raise (UnboundLocalError msg_config_unbound)
                   end in
         let* d := lift (model_dict c) in
         let* p := lift (dumps_items d []) in
         modify (set_PARAM_SPEC p))
        (StepInterfaceError msg_cannot_serialize) ;;
      let* p := gets (PARAM_SPEC ∘ the_self) in
      match p with
      | [] => raise (AssertionError msg_config_not_found)
      | _ => ret tt
      end ;;
      find_config rest config
  end.

(** [BaseStep.__init__(self, *args, **kwargs)].  In [if self.CONFIG:] a
    class counts as true and [None] as false. *)
Definition BaseStep_init (args : list pyval) (kwargs : odict pyval) : M frame unit :=
  modify (set_materializers None) ;;
  modify (set_component None) ;;
  modify (set_PARAM_SPEC []) ;;
  match args with
  | [] => ret tt
  | _ => raise (StepInterfaceError msg_only_keywords)
  end ;;
  let* config_type := gets (CONFIG ∘ the_class) in
  match config_type with
  | Some (OClass _) | Some (OOutput _) | Some (OOther _) =>
      find_config kwargs.*2 None
  | Some ONone | None => ret tt
  end ;;
  let* cls := gets the_class in
  let* self := gets the_self in
  let* cc := lift (generate_component cls self) in
  modify (set_component_class (Some cc)).

Definition msg_undefined (artifact : string) (defined : list string) : string :=
  "Artifact `" +:+ artifact
  +:+ "` is not defined in the input signature of the step. Defined artifacts: "
  +:+ py_str_list defined.

Definition msg_unconnected (artifact : string) : string :=
  "Artifact " +:+ artifact
  +:+ " is defined in the input signature of the step but not connected in the pipeline creation!".

(** The interpreter's messages for a repeated keyword and for a missing
    attribute, without the name of the callee or of the object's type that
    it puts in front. *)
Definition msg_multiple_values (k : string) : string :=
  "got multiple values for keyword argument '" +:+ k +:+ "'".

Definition msg_no_attribute (k : string) : string :=
  "object has no attribute '" +:+ k +:+ "'".

(** A call that unpacks two dictionaries into keywords: those of [b] after
    those of [a]; the first keyword of [b] that [a] has too is a
    [TypeError]. *)
Definition merge_kwargs (a b : odict kwarg) : result (odict kwarg) :=
  match List.find (λ kv, dict_mem kv.1 a) b with
  | Some (k, _) => Raise (TypeError (msg_multiple_values k))
  | None => Ok (a ++ b)
  end.

(** What [__call__] returns: one channel, or a list of them. *)
Inductive returned :=
| Single (c : channel)
| Many (l : list channel).

(** [getattr(self.component.outputs, k)]. *)
Definition output_channel (k : string) : M frame channel :=
  let* component := gets (_BaseStep__component ∘ the_self) in
  match component with
  | Some c =>
      match outputs c !! k with
      | Some ch => ret ch
      | None => raise (AttributeError (msg_no_attribute k))
      end
  | None => raise (AttributeError (msg_no_attribute "outputs"))
  end.

(** [for k in ks: returns.append(getattr(self.component.outputs, k))]. *)
Fixpoint resolve_returns (ks : list string) (returns : list channel) : M frame (list channel) :=
  match ks with
  | [] => ret returns
  | k :: r => let* ch := output_channel k in resolve_returns r (returns ++ [ch])
  end.

(** [BaseStep.__call__(self, **artifacts)]. *)
Definition BaseStep_call (artifacts : odict channel) : M frame returned :=
  let* input_spec := gets (INPUT_SPEC ∘ the_class) in
  for_each (keys artifacts) (λ artifact,
    if dict_mem artifact input_spec then ret tt
    else raise (ValueError (msg_undefined artifact (keys input_spec)))) ;;
  for_each (keys input_spec) (λ artifact,
    if dict_mem artifact artifacts then ret tt
    else raise (ValueError (msg_unconnected artifact))) ;;
  let* component_class := gets (_BaseStep__component_class ∘ the_self) in
  let* make := match component_class with
               | Some make => ret make
               | None => raise (AttributeError
                                  (msg_no_attribute "_BaseStep__component_class"))
               end in
  let* param_spec := gets (PARAM_SPEC ∘ the_self) in
  let* kw := lift (merge_kwargs (prod_map id KArtifact <$> artifacts)
                                (prod_map id KParam <$> param_spec)) in
  let* component := lift (make kw) in
  modify (set_component (Some component)) ;;
  let* output_spec := gets (OUTPUT_SPEC ∘ the_class) in
  let* returns := resolve_returns (keys output_spec) [] in
  match returns with
  | [one] => ret (Single one)
  | _ => ret (Many returns)
  end.

(** [BaseStep.with_materializers(self, materializers)]: inject
    materializers from the outside and return [self]. *)
Definition BaseStep_with_materializers (m : odict pyclass) : M frame step :=
  modify (set_materializers (Some m)) ;;
  gets the_self.

(** The property [BaseStep.component]: the component of the last call. *)
Definition BaseStep_component : M frame (option Component) :=
  gets (_BaseStep__component ∘ the_self).

(** *** The object store

    Classes and instances live in a store and are reached by reference; an
    instance holds the reference of its class.  A method runs on the frame
    of its receiver and both objects of the frame are written back. *)

(** An instance as [object.__new__] hands it to [__init__]. *)
Definition unbuilt : step := Step None None [] None.

Record world := World {
  classes : gmap nat step_class;
  instances : gmap nat (nat * step)
}.

(** A [class] statement whose [process] function has the signature [spec]:
    the class is stored when [__new__] returns it. *)
Definition define_class (spec : FullArgSpec) (w : world) : world :=
  match BaseStepMeta_new spec with
  | Ok cls => World (<[fresh (dom (classes w)) := cls]> (classes w)) (instances w)
  | Raise _ => w
  end.

Inductive operation :=
| Construct (c : nat) (args : list pyval) (kwargs : odict pyval)
| Call (i : nat) (artifacts : odict channel)
| WithMaterializers (i : nat) (m : odict pyclass).

(** The instance an operation works on: the one it creates, or its receiver. *)
Definition receiver (op : operation) (w : world) : nat :=
  match op with
  | Construct _ _ _ => fresh (dom (instances w))
  | Call i _ | WithMaterializers i _ => i
  end.

(** Run a method on instance [i] of class [c], starting from the instance
    state [s]; [keep] tells whether the instance survives the outcome. *)
Definition run_method {A} (c i : nat) (s : step) (m : M frame A)
    (keep : result A → bool) (w : world) : world :=
  match classes w !! c with
  | Some cls =>
      let '(r, f) := m (Frame cls s) in
      World (<[c := the_class f]> (classes w))
            (if keep r then <[i := (c, the_self f)]> (instances w) else instances w)
  | None => w
  end.

Definition is_Ok {A} (r : result A) : bool :=
  match r with Ok _ => true | Raise _ => false end.

(** One operation on the store.  An instance whose [__init__] raised is
    dropped; an operation on a missing object changes nothing. *)
Definition exec (w : world) (op : operation) : world :=
  match op with
  | Construct c args kwargs =>
      run_method c (receiver op w) unbuilt (BaseStep_init args kwargs) is_Ok w
  | Call i artifacts =>
      match instances w !! i with
      | Some (c, s) => run_method c i s (BaseStep_call artifacts) (λ _, true) w
      | None => w
      end
  | WithMaterializers i m =>
      match instances w !! i with
      | Some (c, s) => run_method c i s (BaseStep_with_materializers m) (λ _, true) w
      | None => w
      end
  end.

End Embedding.

(** ** Reference collaborators

    Executable stand-ins for the imported functions, used to run the
    embedding on concrete inputs. *)

Definition py_int : pyclass := PyClass "int" ["int"; "object"].
Definition py_str_class : pyclass := PyClass "str" ["str"; "object"].
Definition py_datetime : pyclass :=
  PyClass "datetime.datetime" ["datetime.datetime"; "datetime.date"; "object"].
Definition py_socket : pyclass := PyClass "socket.socket" ["socket.socket"; "object"].

(** A configuration class as users write it: [class TrainerConfig(BaseStepConfig)]. *)
Definition TrainerConfig : pyclass :=
  PyClass "TrainerConfig"
          ["TrainerConfig"; BaseStepConfig_name; "pydantic.main.BaseModel"; "object"].
Definition LoaderConfig : pyclass :=
  PyClass "LoaderConfig"
          ["LoaderConfig"; BaseStepConfig_name; "pydantic.main.BaseModel"; "object"].

(** The part of a qualified name after its last dot: [__name__]. *)
Fixpoint unqualified (s acc : string) : string :=
  match s with
  | EmptyString => acc
  | String a r =>
      if decide (a = "."%char) then unqualified r EmptyString
      else unqualified r (acc +:+ String a EmptyString)
  end.

(** [json.dumps] with its default arguments on the values of [pyval]: an
    instance of an arbitrary class is not serializable. *)
Fixpoint py_json_dumps (v : pyval) : result string :=
  match v with
  | VNone => Ok "null"
  | VBool b => Ok (if b then "true" else "false")
  | VInt z => Ok (pretty z)
  | VList l =>
      match (fix elements (l : list pyval) : result (list string) :=
               match l with
               | [] => Ok []
               | x :: r =>
                   match py_json_dumps x with
                   | Ok s =>
                       match elements r with
                       | Ok ss => Ok (s :: ss)
                       | Raise e => Raise e
                       end
                   | Raise e => Raise e
                   end
               end) l with
      | Ok ss => Ok ("[" +:+ String.concat ", " ss +:+ "]")
      | Raise e => Raise e
      end
  | VInst c _ =>
      Raise (TypeError ("Object of type " +:+ unqualified (cls_name c) EmptyString
                        +:+ " is not JSON serializable"))
  end.

(** [dict()] of a pydantic model whose fields hold no nested models. *)
Definition pydantic_dict (v : pyval) : result (odict pyval) :=
  match v with
  | VInst _ fields => Ok fields
  | _ => Raise (AttributeError "object has no attribute 'dict'")
  end.

(** A registry that knows the built-in [int] and [str]. *)
Definition builtin_registry (o : pyobj) : bool :=
  match o with
  | OClass c => bool_decide (cls_name c ∈ ["int"; "str"])
  | _ => false
  end.

(** A component class whose components expose one channel per declared
    output, numbered in the order of [OUTPUT_SPEC]. *)
Definition numbered_component (cls : step_class) (s : step) : result component_class :=
  Ok (λ _, Ok {| outputs := list_to_map (imap (λ i k, (k, Channel i))
                                               (keys (OUTPUT_SPEC cls))) |}).

Definition reference : Collaborators := {|
  is_registered := builtin_registry;
  SINGLE_RETURN_OUT_NAME := "output";
  model_dict := pydantic_dict;
  json_dumps := py_json_dumps;
  generate_component := numbered_component
|}.

(** ** Vocabulary of the statements *)

Section Vocabulary.
Context `{Collaborators}.

(** A parameter annotated with a subclass of [BaseStepConfig]. *)
Definition is_config_param (spec : FullArgSpec) (a : string) : bool :=
  match annotation spec a with
  | OClass c => subclass_of c BaseStepConfig_name
  | _ => false
  end.

(** A parameter annotated with a registered class that is not a
    configuration class. *)
Definition is_artifact_param (spec : FullArgSpec) (a : string) : bool :=
  match annotation spec a with
  | OClass c => negb (subclass_of c BaseStepConfig_name) && is_registered (OClass c)
  | _ => false
  end.

Definition classifies (spec : FullArgSpec) (a : string) : bool :=
  is_config_param spec a || is_artifact_param spec a.

(** How many of the parameters [l] are configuration-typed. *)
Definition config_count (spec : FullArgSpec) (l : list string) : nat :=
  length (List.filter (is_config_param spec) l).

(** A return annotation that [__new__] accepts: none, a registered single
    object, or an [Output] whose types are all registered. *)
Definition return_ok (spec : FullArgSpec) : bool :=
  match annotation spec "return" with
  | ONone => true
  | OOutput items => forallb (λ it, is_registered it.2) items
  | t => is_registered t
  end.

(** The parameters all classify and at most one is configuration-typed. *)
Definition params_ok (spec : FullArgSpec) : Prop :=
  forallb (classifies spec) (process_args spec) = true ∧
  config_count spec (process_args spec) ≤ 1.

(** The input spec and the configuration type that the parameter loop has
    built after the parameters [l]. *)
Definition inputs_after (spec : FullArgSpec) (l : list string) (d : odict pyclass) : odict pyclass :=
  foldl (λ d a, if is_config_param spec a then d else dict_update a BaseArtifact d) d l.

Definition config_after (spec : FullArgSpec) (l : list string) (c : option pyobj) : option pyobj :=
  foldl (λ c a, if is_config_param spec a then Some (annotation spec a) else c) c l.

(** The parameter spec of a configuration value: its fields, each
    serialized, or the first exception on the way. *)
Definition serialized (c : pyval) : result (odict string) :=
  match model_dict c with
  | Ok d => dumps_items d []
  | Raise e => Raise e
  end.

(** A method that leaves the class of its frame as it found it. *)
Definition preserves_class {A} (m : M frame A) : Prop :=
  ∀ f, the_class (m f).2 = the_class f.

(** The output spec after the [Output] items [items]. *)
Definition outputs_after (items : list (string * pyobj)) (d : odict pyclass) : odict pyclass :=
  foldl (λ d it, dict_update it.1 BaseArtifact d) d items.

(** The parameters that are not configuration-typed, in their order. *)
Definition artifact_params (spec : FullArgSpec) : list string :=
  List.filter (λ a, negb (is_config_param spec a)) (process_args spec).

(** The annotation of the first configuration-typed parameter. *)
Definition declared_config (spec : FullArgSpec) : option pyobj :=
  annotation spec <$> List.find (is_config_param spec) (process_args spec).

(** The exceptions that class construction raises by itself. *)
Definition construction_error (e : exn) : Prop :=
  (∃ msg, e = StepInterfaceError msg) ∨
  e = TypeError "issubclass() arg 1 must be a class".

(** The channels that a component exposes under the names [ks], or the
    [AttributeError] for the first name it does not expose. *)
Fixpoint exposed (component : Component) (ks : list string) : result (list channel) :=
  match ks with
  | [] => Ok []
  | k :: r =>
      match outputs component !! k with
      | Some ch =>
          match exposed component r with
          | Ok chs => Ok (ch :: chs)
          | Raise e => Raise e
          end
      | None => Raise (AttributeError (msg_no_attribute k))
      end
  end.

(** What [__call__] makes of the resolved channels. *)
Definition as_returned (chs : list channel) : returned :=
  match chs with
  | [one] => Single one
  | _ => Many chs
  end.

(** The last configuration among keyword values. *)
Definition last_config (vs : list pyval) : option pyval :=
  last (List.filter isinstance_BaseStepConfig vs).

(** A configuration whose serialization succeeds and is not empty. *)
Definition serializes (c : pyval) : Prop :=
  ∃ p, serialized c = Ok p ∧ p ≠ [].

End Vocabulary.

(** ** Sample steps

    Signatures and classes on which the statements below are run. *)

(** [def process(self, p1: t1, ...) -> ret], a parameter or the return
    being left without an annotation by [None]. *)
Definition def_process (params : list (string * option pyobj)) (ret : option pyobj) : FullArgSpec :=
  {| args := "self" :: params.*1;
     annotations :=
       list_to_map (omap (λ p, pair p.1 <$> p.2) params
                    ++ from_option (λ r, [("return", r)]) [] ret) |}.

(** [def process(self, data: int, config: TrainerConfig) -> int] *)
Definition trainer_process : FullArgSpec :=
  def_process [("data", Some (OClass py_int)); ("config", Some (OClass TrainerConfig))]
              (Some (OClass py_int)).

(** [def process(self, data: int) -> Output(total=int, label=str)] *)
Definition splitter_process : FullArgSpec :=
  def_process [("data", Some (OClass py_int))]
              (Some (OOutput [("total", OClass py_int); ("label", OClass py_str_class)])).

(** [def process(self) -> socket.socket] *)
Definition socket_returning_process : FullArgSpec :=
  def_process [] (Some (OClass py_socket)).

(** [def process(self, conn: socket.socket, a: TrainerConfig, b: LoaderConfig)] *)
Definition socket_then_configs_process : FullArgSpec :=
  def_process [("conn", Some (OClass py_socket)); ("a", Some (OClass TrainerConfig));
               ("b", Some (OClass LoaderConfig))] None.

(** [def process(self, a: TrainerConfig, b: LoaderConfig)] *)
Definition two_configs_process : FullArgSpec :=
  def_process [("a", Some (OClass TrainerConfig)); ("b", Some (OClass LoaderConfig))] None.

(** [def process(self, a: TrainerConfig, b: TrainerConfig)] *)
Definition same_config_twice_process : FullArgSpec :=
  def_process [("a", Some (OClass TrainerConfig)); ("b", Some (OClass TrainerConfig))] None.

(** [def process(self, conn: socket.socket) -> int] *)
Definition socket_taking_process : FullArgSpec :=
  def_process [("conn", Some (OClass py_socket))] (Some (OClass py_int)).

(** [def process(self, conn: socket.socket) -> Output(total=int, label=str)] *)
Definition socket_splitter_process : FullArgSpec :=
  def_process [("conn", Some (OClass py_socket))]
              (Some (OOutput [("total", OClass py_int); ("label", OClass py_str_class)])).

(** [def process(self, data: int) -> Output(total=int, conn=socket.socket)] *)
Definition socket_output_process : FullArgSpec :=
  def_process [("data", Some (OClass py_int))]
              (Some (OOutput [("total", OClass py_int); ("conn", OClass py_socket)])).

(** [def process(self, a: TrainerConfig, b: TrainerConfig, conn: socket.socket)] *)
Definition configs_then_socket_process : FullArgSpec :=
  def_process [("a", Some (OClass TrainerConfig)); ("b", Some (OClass TrainerConfig));
               ("conn", Some (OClass py_socket))] None.

(** [def process(self, data: int, conn: socket.socket)] *)
Definition data_then_socket_process : FullArgSpec :=
  def_process [("data", Some (OClass py_int)); ("conn", Some (OClass py_socket))] None.

(** [def process(self, data: int) -> socket.socket] *)
Definition data_to_socket_process : FullArgSpec :=
  def_process [("data", Some (OClass py_int))] (Some (OClass py_socket)).

(** [def process(self, a: TrainerConfig, b: LoaderConfig) -> int] *)
Definition two_configs_to_int_process : FullArgSpec :=
  def_process [("a", Some (OClass TrainerConfig)); ("b", Some (OClass LoaderConfig))]
              (Some (OClass py_int)).

(** [def process(self, a: TrainerConfig, b: LoaderConfig) -> Output(total=int)] *)
Definition two_configs_to_output_process : FullArgSpec :=
  def_process [("a", Some (OClass TrainerConfig)); ("b", Some (OClass LoaderConfig))]
              (Some (OOutput [("total", OClass py_int)])).

(** [def process(self, conn: socket.socket, peer: socket.socket)] *)
Definition two_sockets_process : FullArgSpec :=
  def_process [("conn", Some (OClass py_socket)); ("peer", Some (OClass py_socket))] None.

(** [def process(self, data)] *)
Definition unannotated_process : FullArgSpec :=
  def_process [("data", None)] None.

(** The class that [trainer_process] defines. *)
Definition trainer_class : step_class :=
  StepClass [("data", BaseArtifact)] [("output", BaseArtifact)]
            (Some (OClass TrainerConfig)).

(** [TrainerConfig(epochs=3)] *)
Definition plain_config : pyval := VInst TrainerConfig [("epochs", VInt 3)].

(** [TrainerConfig(data=3)], a field named like the step's input. *)
Definition clashing_config : pyval := VInst TrainerConfig [("data", VInt 3)].

(** [TrainerConfig(epochs=3, started=datetime.now())] *)
Definition dated_config : pyval :=
  VInst TrainerConfig [("epochs", VInt 3); ("started", VInst py_datetime [])].

(** The component of a trainer: one channel, for its one output. *)
Definition trainer_component : Component :=
  {| outputs := {["output" := Channel 0]} |}.

(** The frame in which [__init__] of a new [trainer_class] instance runs. *)
Definition trainer_unbuilt : frame := Frame trainer_class unbuilt.

(** The instance left by [Trainer(config=TrainerConfig(data=3))]. *)
Definition clashing_trainer : frame :=
  (BaseStep_init (H:=reference) [] [("config", clashing_config)] trainer_unbuilt).2.

(** The instance left by [Trainer(config=TrainerConfig(epochs=3))]. *)
Definition plain_trainer : frame :=
  (BaseStep_init (H:=reference) [] [("config", plain_config)] trainer_unbuilt).2.

(** A store with the trainer class and one instance. *)
Definition one_trainer : world :=
  World {[0 := trainer_class]} {[0 := (0, the_self plain_trainer)]}.

(** A store with the trainer class and two of its instances. *)
Definition two_trainers : world :=
  World {[0 := trainer_class]}
        {[0 := (0, the_self plain_trainer); 1 := (0, the_self clashing_trainer)]}.

(** [def process(self, data: int, config: TrainerConfig)] *)
Definition sink_process : FullArgSpec :=
  def_process [("data", Some (OClass py_int)); ("config", Some (OClass TrainerConfig))]
              None.

(** A class without configuration type: [def process(self, data: int)]. *)
Definition plain_class : step_class :=
  StepClass [("data", BaseArtifact)] [] None.

(** [TrainerConfig()], a configuration without fields. *)
Definition empty_config : pyval := VInst TrainerConfig [].

(** A trainer whose component class raises. *)
Definition failing_trainer : frame :=
  Frame trainer_class
        (Step None None [("epochs", "3")]
              (Some (λ _, Raise (RuntimeError "component")))).

(** A trainer whose components expose no output. *)
Definition bare_trainer : frame :=
  Frame trainer_class
        (Step None None [("epochs", "3")]
              (Some (λ _, Ok {| outputs := ∅ |}))).

(** ** Dictionaries and loops *)

Section Basics.
Context {V : Type}.
Implicit Types (d : odict V) (k : string) (v : V).

Lemma keys_dict_update_elem k k' v d :
  k' ∈ keys (dict_update k v d) ↔ k' = k ∨ k' ∈ keys d.
Proof.
  unfold keys. induction d as [|[k0 v0] d IH]; simpl.
  - rewrite list_elem_of_singleton. set_solver.
  - destruct (decide (k0 = k)) as [->|Hne]; simpl.
    + set_solver.
    + rewrite !elem_of_cons, IH. naive_solver.
Qed.

Lemma dict_update_fresh k v d :
  k ∉ keys d → dict_update k v d = d ++ [(k, v)].
Proof.
  unfold keys. induction d as [|[k0 v0] d IH]; simpl; [done|].
  rewrite not_elem_of_cons. intros [Hne Hnin].
  destruct (decide (k0 = k)); [congruence|]. by rewrite IH.
Qed.

Lemma dict_update_values k v d k' v' :
  (k', v') ∈ dict_update k v d → (k', v') ∈ d ∨ v' = v.
Proof.
  induction d as [|[k0 v0] d IH]; simpl.
  - rewrite list_elem_of_singleton. intros [= -> ->]. by right.
  - destruct (decide (k0 = k)) as [->|Hne]; rewrite !elem_of_cons.
    + intros [[= -> ->]|Hin]; [by right|]. left. by right.
    + intros [Heq|Hin]; [left; by left|].
      destruct (IH Hin) as [?|?]; [left; by right|by right].
Qed.

End Basics.

Section Loops.
Context {St A : Type}.
Implicit Types (body : A → M St unit) (l : list A) (s : St).

Lemma for_each_app body l1 l2 s :
  for_each (l1 ++ l2) body s =
  match for_each l1 body s with
  | (Ok _, s') => for_each l2 body s'
  | (Raise e, s') => (Raise e, s')
  end.
Proof.
  revert s. induction l1 as [|x l1 IH]; intros s; simpl; [done|].
  unfold bind. destruct (body x s) as [[[]|e] s']; [apply IH|done].
Qed.

(** A loop whose body passes on every element without touching the state. *)
Lemma for_each_pass body l s :
  Forall (λ x, body x s = (Ok tt, s)) l → for_each l body s = (Ok tt, s).
Proof.
  induction 1 as [|x l Hx _ IH]; simpl; [done|].
  unfold bind. by rewrite Hx.
Qed.

(** A loop that passes a prefix and raises at the next element. *)
Lemma for_each_raise body pre x post e s :
  Forall (λ x, body x s = (Ok tt, s)) pre →
  body x s = (Raise e, s) →
  for_each (pre ++ x :: post) body s = (Raise e, s).
Proof.
  intros Hpre Hx. rewrite for_each_app, (for_each_pass _ _ _ Hpre). simpl.
  unfold bind. by rewrite Hx.
Qed.

End Loops.

(** *** Occurrences in strings *)

Lemma string_app_assoc (s1 s2 s3 : string) :
  (s1 +:+ s2) +:+ s3 = s1 +:+ s2 +:+ s3.
Proof.
  induction s1 as [|a s1 IH]; [done|].
  change (String a ((s1 +:+ s2) +:+ s3) = String a (s1 +:+ s2 +:+ s3)).
  by rewrite IH.
Qed.

Lemma occurs_head (sub after : string) : occurs sub (sub +:+ after).
Proof. by exists EmptyString, after. Qed.

Lemma occurs_after (prefix sub s : string) :
  occurs sub s → occurs sub (prefix +:+ s).
Proof.
  intros (before & after & ->). exists (prefix +:+ before), after.
  by rewrite string_app_assoc.
Qed.

Lemma occurs_before (sub s suffix : string) :
  occurs sub s → occurs sub (s +:+ suffix).
Proof.
  intros (before & after & ->). exists before, (after +:+ suffix).
  by rewrite !string_app_assoc.
Qed.

Lemma occurs_nonempty (sub : string) :
  occurs sub EmptyString → sub = EmptyString.
Proof.
  intros (before & after & Heq). destruct before; [|done].
  by destruct sub.
Qed.

(** The first element of a list that fails a decidable test. *)
Lemma first_failing {A} (P : A → Prop) `{∀ x, Decision (P x)} (l : list A) :
  (∃ x, x ∈ l ∧ ¬ P x) →
  ∃ pre x post, l = pre ++ x :: post ∧ Forall P pre ∧ ¬ P x.
Proof.
  induction l as [|a l IH]; intros (x & Hin & Hx).
  - by apply elem_of_nil in Hin.
  - destruct (decide (P a)) as [Ha|Ha].
    + destruct IH as (pre & y & post & -> & Hpre & Hy).
      { apply elem_of_cons in Hin as [->|Hin]; [done|eauto]. }
      exists (a :: pre), y, post. split_and!; [done|by constructor|done].
    + exists [], a, l. split_and!; [done|constructor|done].
Qed.

(** ** Class construction *)

Section ClassConstructionFacts.
Context `{Collaborators}.
Implicit Types (spec : FullArgSpec) (cls : step_class) (a k : string) (l : list string).

Ltac run := unfold bind, lift, gets, modify, raise, ret; simpl.

Lemma config_or_artifact spec a :
  is_config_param spec a = true → is_artifact_param spec a = false.
Proof.
  unfold is_config_param, is_artifact_param.
  destruct (annotation spec a); try done. by intros ->.
Qed.

Lemma classify_arg_config spec a cls :
  is_config_param spec a = true → CONFIG cls = None →
  classify_arg spec a cls = (Ok tt, set_CONFIG (Some (annotation spec a)) cls).
Proof.
  unfold is_config_param, classify_arg. intros Ha Hc.
  destruct (annotation spec a); try done. run. by rewrite Ha, Hc.
Qed.

Lemma classify_arg_second_config spec a cls :
  is_config_param spec a = true → is_Some (CONFIG cls) →
  classify_arg spec a cls = (Raise (StepInterfaceError msg_one_config), cls).
Proof.
  unfold is_config_param, classify_arg. intros Ha [c Hc].
  destruct (annotation spec a); try done. run. by rewrite Ha, Hc.
Qed.

Lemma classify_arg_artifact spec a cls :
  is_artifact_param spec a = true →
  classify_arg spec a cls = (Ok tt, update_INPUT_SPEC a BaseArtifact cls).
Proof.
  unfold is_artifact_param, classify_arg. intros Ha.
  destruct (annotation spec a); try done. run.
  apply andb_true_iff in Ha as [Hn ->]. apply negb_true_iff in Hn. by rewrite Hn.
Qed.

Lemma classify_arg_unclassified spec a c cls :
  annotation spec a = OClass c →
  subclass_of c BaseStepConfig_name = false →
  is_registered (OClass c) = false →
  classify_arg spec a cls =
    (Raise (StepInterfaceError (msg_unclassified (OClass c) a)), cls).
Proof. unfold classify_arg. intros -> Hs Hr. run. by rewrite Hs, Hr. Qed.

(** A parameter whose annotation is missing, [None] or any other object
    that is not a class stops [issubclass] before any classification. *)
Lemma classify_arg_not_a_class spec a cls :
  (∀ c, annotation spec a ≠ OClass c) →
  classify_arg spec a cls =
    (Raise (TypeError "issubclass() arg 1 must be a class"), cls).
Proof.
  unfold classify_arg. intros Hn.
  destruct (annotation spec a) as [|c| |]; try done. by destruct (Hn c).
Qed.

Lemma config_after_keeps spec l (c : option pyobj) :
  is_Some c → is_Some (config_after spec l c).
Proof.
  revert c. induction l as [|a l IH]; intros c Hc; simpl; [done|].
  apply IH. by destruct (is_config_param spec a).
Qed.

Lemma config_after_found spec l (c : option pyobj) :
  1 ≤ config_count spec l → is_Some (config_after spec l c).
Proof.
  unfold config_count. revert c. induction l as [|a l IH]; intros c; simpl; [lia|].
  destruct (is_config_param spec a); simpl; intros Hn.
  - by apply config_after_keeps.
  - by apply IH.
Qed.

Lemma config_after_none spec l :
  config_count spec l = 0 → config_after spec l None = None.
Proof.
  unfold config_count. induction l as [|a l IH]; simpl; [done|].
  destruct (is_config_param spec a); simpl; [done|apply IH].
Qed.

Lemma inputs_after_keys spec l (d : odict pyclass) k :
  k ∈ keys (inputs_after spec l d) ↔
  k ∈ keys d ∨ (k ∈ l ∧ is_config_param spec k = false).
Proof.
  revert d. induction l as [|a l IH]; intros d; simpl.
  - set_solver.
  - rewrite IH, elem_of_cons. destruct (is_config_param spec a) eqn:Ha.
    + split; [naive_solver|]. intros [?|[[->|?] ?]]; [by left|congruence|by right].
    + rewrite keys_dict_update_elem. naive_solver.
Qed.

Lemma inputs_after_values spec l (d : odict pyclass) k v :
  (k, v) ∈ inputs_after spec l d → (k, v) ∈ d ∨ v = BaseArtifact.
Proof.
  revert d. induction l as [|a l IH]; intros d; simpl; [by left|].
  intros Hin. apply IH in Hin as [Hin|?]; [|by right].
  destruct (is_config_param spec a); [by left|].
  by apply dict_update_values in Hin.
Qed.

(** The parameter loop on parameters that all classify, at most one of
    them being configuration-typed. *)
Lemma classify_loop spec l cls :
  forallb (classifies spec) l = true →
  config_count spec l + match CONFIG cls with Some _ => 1 | None => 0 end ≤ 1 →
  for_each l (classify_arg spec) cls =
    (Ok tt, StepClass (inputs_after spec l (INPUT_SPEC cls)) (OUTPUT_SPEC cls)
                      (config_after spec l (CONFIG cls))).
Proof.
  unfold config_count. revert cls.
  induction l as [|a l IH]; intros cls Hall Hcount; simpl in *.
  - by destruct cls.
  - apply andb_true_iff in Hall as [Ha Hall]. unfold classifies in Ha.
    unfold bind. destruct (is_config_param spec a) eqn:Hc; simpl in *.
    + destruct (CONFIG cls) eqn:Hcfg; [lia|].
      rewrite classify_arg_config by done.
      rewrite IH; [done|done|simpl; lia].
    + rewrite classify_arg_artifact by done. by rewrite IH.
Qed.

(** The output loop over an [Output] whose types are all registered. *)
Lemma register_loop (items : list (string * pyobj)) cls :
  forallb (λ it, is_registered it.2) items = true →
  for_each items register_output cls =
    (Ok tt, StepClass (INPUT_SPEC cls) (outputs_after items (OUTPUT_SPEC cls))
                      (CONFIG cls)).
Proof.
  revert cls. induction items as [|[n t] items IH]; intros cls Hall; simpl in *.
  - by destruct cls.
  - apply andb_true_iff in Hall as [Ht Hall].
    unfold bind, register_output; simpl. rewrite Ht. run. by rewrite IH.
Qed.

(** The output loop stops at the first type without a materializer. *)
Lemma register_loop_raise (pre post : list (string * pyobj)) name ty cls :
  forallb (λ it, is_registered it.2) pre = true →
  is_registered ty = false →
  ∃ cls', for_each (pre ++ (name, ty) :: post) register_output cls =
    (Raise (StepInterfaceError (msg_output_unregistered ty name)), cls').
Proof.
  intros Hpre Hty. rewrite for_each_app, register_loop by done. simpl.
  unfold bind, register_output; simpl. rewrite Hty. run. eauto.
Qed.

Lemma outputs_after_distinct (items : list (string * pyobj)) (d : odict pyclass) :
  NoDup (keys d ++ items.*1) →
  outputs_after items d = d ++ (prod_map id (λ _, BaseArtifact) <$> items).
Proof.
  revert d. induction items as [|[n t] items IH]; intros d Hnd; simpl in *.
  - by rewrite app_nil_r.
  - apply NoDup_app in Hnd as (Hd & Hdisj & Hit).
    apply NoDup_cons in Hit as [Hn Hit].
    rewrite dict_update_fresh by (intros Hin; apply (Hdisj _ Hin); by left).
    rewrite IH, <-app_assoc; [done|].
    unfold keys. rewrite fmap_app. simpl. rewrite <-app_assoc. simpl.
    apply NoDup_app. split_and!; [done| |by constructor].
    intros x Hx. apply Hdisj in Hx. by rewrite not_elem_of_cons in Hx |- *.
Qed.

(** An accepted return annotation leaves the inputs and the configuration
    type as the parameter loop built them. *)
Lemma infer_returns_ok spec cls :
  return_ok spec = true →
  ∃ out, infer_returns spec cls =
    (Ok tt, StepClass (INPUT_SPEC cls) out (CONFIG cls)).
Proof.
  unfold return_ok, infer_returns. destruct (annotation spec "return") eqn:Hr.
  - intros _. exists (OUTPUT_SPEC cls). by destruct cls.
  - intros ->. run. eauto.
  - intros Hall. rewrite register_loop by done. eauto.
  - intros ->. run. eauto.
Qed.

(** Once the parameters classify, [__new__] is decided by the return
    annotation. *)
Lemma new_after_params spec :
  params_ok spec →
  BaseStepMeta_new spec =
    match infer_returns spec
            (StepClass (inputs_after spec (process_args spec) []) []
                       (config_after spec (process_args spec) None)) with
    | (Ok _, cls) => Ok cls
    | (Raise e, _) => Raise e
    end.
Proof.
  intros [Hall Hcount]. unfold BaseStepMeta_new, new_body, bind.
  rewrite classify_loop; [done|done|simpl; lia].
Qed.

(** [__new__] stops in the parameter loop when the loop raises. *)
Lemma new_raises_in_params spec pre a post e :
  process_args spec = pre ++ a :: post →
  forallb (classifies spec) pre = true →
  config_count spec pre ≤ 1 →
  (∀ cls, CONFIG cls = config_after spec pre None →
          classify_arg spec a cls = (Raise e, cls)) →
  BaseStepMeta_new spec = Raise e.
Proof.
  intros Hargs Hpre Hcount Ha. unfold BaseStepMeta_new, new_body, bind.
  rewrite Hargs, for_each_app, classify_loop; [|done|simpl; lia]. simpl.
  unfold bind. by rewrite Ha.
Qed.

End ClassConstructionFacts.

Section ClassConstructionClaims.
Context `{Collaborators}.
Implicit Types (spec : FullArgSpec) (cls : step_class) (a k : string) (l : list string).

(** C2 (amended): when at most one parameter is configuration-typed, every
    other parameter is annotated with a registered class and the return
    annotation is one that [__new__] accepts, class construction succeeds;
    when a second configuration-typed parameter follows parameters that all
    classify, class construction fails with the error that only one
    configuration type may be used. *)
Theorem config_type_count_decides spec :
  (params_ok spec → return_ok spec = true →
   ∃ cls, BaseStepMeta_new spec = Ok cls) ∧
  (∀ pre a post,
     process_args spec = pre ++ a :: post →
     forallb (classifies spec) pre = true →
     config_count spec pre = 1 →
     is_config_param spec a = true →
     BaseStepMeta_new spec = Raise (StepInterfaceError msg_one_config)).
Proof.
  split.
  - intros Hp Hr. rewrite new_after_params by done.
    destruct (infer_returns_ok spec
                (StepClass (inputs_after spec (process_args spec) []) []
                           (config_after spec (process_args spec) None)) Hr)
      as [out ->]. eauto.
  - intros pre a post Hargs Hpre Hcount Ha.
    apply (new_raises_in_params spec pre a post); [done|done|lia|].
    intros cls Hcfg. apply classify_arg_second_config; [done|].
    rewrite Hcfg. apply config_after_found. lia.
Qed.

(** C3 (amended): when every parameter is annotated with a configuration
    class or a registered class, at most one of them with a configuration
    class, and the return annotation is accepted, class construction
    produces an input spec whose keys are exactly the names of the
    parameters that are not configuration-typed, each mapped to
    [BaseArtifact]. *)
Theorem input_spec_is_the_artifact_parameters spec :
  params_ok spec → return_ok spec = true →
  ∃ cls, BaseStepMeta_new spec = Ok cls ∧
    (∀ k, k ∈ keys (INPUT_SPEC cls) ↔
          k ∈ process_args spec ∧ is_config_param spec k = false) ∧
    (∀ k v, (k, v) ∈ INPUT_SPEC cls → v = BaseArtifact).
Proof.
  intros Hp Hr. rewrite new_after_params by done.
  destruct (infer_returns_ok spec
              (StepClass (inputs_after spec (process_args spec) []) []
                         (config_after spec (process_args spec) None)) Hr)
    as [out ->]. simpl.
  eexists. split; [done|]. simpl. split.
  - intros k. rewrite inputs_after_keys. split; [|by right].
    intros [Hin|?]; [|done]. by apply elem_of_nil in Hin.
  - intros k v Hin. apply inputs_after_values in Hin as [Hin|?]; [|done].
    by apply elem_of_nil in Hin.
Qed.

(** C5 (amended): when the parameters all classify, at most one of them as
    the configuration, and the return annotation is a single registered
    object (not [None], not an [Output]), class construction produces an
    output spec with exactly one entry, under [SINGLE_RETURN_OUT_NAME]. *)
Theorem single_return_has_the_fixed_name spec t :
  params_ok spec →
  annotation spec "return" = t →
  t ≠ ONone → (∀ items, t ≠ OOutput items) →
  is_registered t = true →
  ∃ cls, BaseStepMeta_new spec = Ok cls ∧
         OUTPUT_SPEC cls = [(SINGLE_RETURN_OUT_NAME, BaseArtifact)].
Proof.
  intros Hp Hr Hnone Hout Hreg. rewrite new_after_params by done.
  unfold infer_returns. rewrite Hr.
  destruct t as [| |items|]; [done| |by destruct (Hout items)|];
    rewrite Hreg; simpl; eauto.
Qed.

(** C6 (amended): when the parameters all classify, at most one of them as
    the configuration, and the return annotation is an [Output] of N
    distinctly named types: if all the types are registered, class
    construction produces an output spec of N entries whose keys are the
    declared names in their order, each mapped to [BaseArtifact]; if one is
    not, class construction fails with the error that shows the first such
    type and its name: both occur in the message of the error. *)
Theorem multi_output_in_declaration_order spec items :
  params_ok spec →
  annotation spec "return" = OOutput items →
  (NoDup items.*1 →
   forallb (λ it, is_registered it.2) items = true →
   ∃ cls, BaseStepMeta_new spec = Ok cls ∧
          keys (OUTPUT_SPEC cls) = items.*1 ∧
          length (OUTPUT_SPEC cls) = length items ∧
          ∀ k v, (k, v) ∈ OUTPUT_SPEC cls → v = BaseArtifact) ∧
  (∀ pre name ty post,
     items = pre ++ (name, ty) :: post →
     forallb (λ it, is_registered it.2) pre = true →
     is_registered ty = false →
     ∃ msg, BaseStepMeta_new spec = Raise (StepInterfaceError msg) ∧
            msg = msg_output_unregistered ty name ∧
            occurs name msg ∧ occurs (py_str ty) msg ∧
            ∀ c, ty = OClass c → occurs (cls_name c) msg).
Proof.
  intros Hp Hr. rewrite new_after_params by done.
  unfold infer_returns. rewrite Hr. split.
  - intros Hnd Hall. rewrite register_loop by done. simpl.
    rewrite outputs_after_distinct by done. simpl.
    eexists. split; [done|]. simpl. split_and!.
    + unfold keys. rewrite <-list_fmap_compose. by apply list_fmap_ext.
    + by rewrite length_fmap.
    + intros k v Hin. apply list_elem_of_fmap in Hin as ([n t] & [= -> ->] & _). done.
  - intros pre name ty post -> Hpre Hty.
    destruct (register_loop_raise pre post name ty
                (StepClass (inputs_after spec (process_args spec) []) []
                           (config_after spec (process_args spec) None)) Hpre Hty)
      as [cls' ->].
    exists (msg_output_unregistered ty name). split_and!; [done..| | |].
    + do 3 apply occurs_after. apply occurs_head.
    + apply occurs_after, occurs_head.
    + intros c ->. apply occurs_after, occurs_before, occurs_after, occurs_head.
Qed.

(** C7 (amended): a parameter annotated with a class that is neither a
    subclass of [BaseStepConfig] nor registered, and whose preceding
    parameters all classify (at most one of them as the configuration),
    makes class construction fail with the classification error that shows
    the parameter's type and name: the name of the parameter and the name
    of its class occur in the message of the error. *)
Theorem unclassified_parameter_is_reported spec pre a post c :
  process_args spec = pre ++ a :: post →
  forallb (classifies spec) pre = true →
  config_count spec pre ≤ 1 →
  annotation spec a = OClass c →
  subclass_of c BaseStepConfig_name = false →
  is_registered (OClass c) = false →
  ∃ msg, BaseStepMeta_new spec = Raise (StepInterfaceError msg) ∧
         msg = msg_unclassified (OClass c) a ∧
         occurs a msg ∧ occurs (py_str (OClass c)) msg ∧
         occurs (cls_name c) msg.
Proof.
  intros Hargs Hpre Hcount Ha Hs Hr.
  exists (msg_unclassified (OClass c) a). split_and!; [|done| | |].
  - apply (new_raises_in_params spec pre a post); [done..|].
    intros cls _. by apply classify_arg_unclassified.
  - do 3 apply occurs_after. apply occurs_head.
  - apply occurs_after, occurs_head.
  - apply occurs_after, occurs_before, occurs_after, occurs_head.
Qed.

End ClassConstructionClaims.

(** ** Invocation *)

Section InvocationFacts.
Implicit Types (f : frame) (artifacts : odict channel) (k : string).

Ltac run := unfold bind, lift, gets, modify, raise, ret; simpl.

Lemma dict_mem_true {V} k (d : odict V) : dict_mem k d = true ↔ k ∈ keys d.
Proof. unfold dict_mem. by rewrite bool_decide_eq_true. Qed.

Lemma dict_mem_false {V} k (d : odict V) : dict_mem k d = false ↔ k ∉ keys d.
Proof. unfold dict_mem. by rewrite bool_decide_eq_false. Qed.

Lemma keys_tagged {V W} (g : V → W) (d : odict V) :
  keys (prod_map id g <$> d) = keys d.
Proof.
  unfold keys. rewrite <-list_fmap_compose. apply list_fmap_ext.
  by intros _ [k v] _.
Qed.

Lemma merge_kwargs_disjoint (a b : odict kwarg) :
  (∀ k, k ∈ keys b → k ∉ keys a) → merge_kwargs a b = Ok (a ++ b).
Proof.
  unfold merge_kwargs. intros Hdisj.
  assert (List.find (λ kv : string * kwarg, dict_mem kv.1 a) b = None) as ->; [|done].
  induction b as [|[k v] b IH]; simpl; [done|].
  assert (dict_mem k a = false) as ->.
  { apply dict_mem_false, Hdisj. unfold keys. simpl. by left. }
  apply IH. intros k' Hk'. apply Hdisj. unfold keys in *. simpl. by right.
Qed.

Lemma last_char_app (s t : string) :
  t ≠ EmptyString → last_char (s +:+ t) = last_char t.
Proof.
  intros Ht. induction s as [|a s IH]; simpl; [done|].
  rewrite IH. destruct (s +:+ t) eqn:Hst; [|done].
  destruct s; simpl in Hst; [by destruct Ht|discriminate].
Qed.

Lemma app_nonempty (s t : string) : t ≠ EmptyString → s +:+ t ≠ EmptyString.
Proof. destruct s; simpl; [done|discriminate]. Qed.

(** The two binding errors never carry the same message. *)
Lemma binding_messages_differ k (declared : list string) k' :
  msg_undefined k declared ≠ msg_unconnected k'.
Proof.
  intros Heq. apply (f_equal last_char) in Heq. revert Heq.
  unfold msg_undefined, msg_unconnected, py_str_list.
  rewrite !last_char_app by (repeat first [discriminate | apply app_nonempty]).
  done.
Qed.

(** Resolving the declared outputs on a component that exposes them. *)
Lemma resolve_returns_exposed (ks : list string) (acc : list channel) f component :
  _BaseStep__component (the_self f) = Some component →
  (∀ k, k ∈ ks → is_Some (outputs component !! k)) →
  ∃ chs, Forall2 (λ k ch, outputs component !! k = Some ch) ks chs ∧
         resolve_returns ks acc f = (Ok (acc ++ chs), f).
Proof.
  intros Hc. revert acc. induction ks as [|k ks IH]; intros acc Hex; simpl.
  - exists []. split; [constructor|]. by rewrite app_nil_r.
  - destruct (Hex k) as [ch Hch]; [by left|].
    destruct (IH (acc ++ [ch])) as (chs & Hall & Hrun).
    { intros k' Hk'. apply Hex. by right. }
    exists (ch :: chs). split; [by constructor|].
    unfold bind, output_channel. run. rewrite Hc, Hch. run.
    by rewrite Hrun, <-app_assoc.
Qed.

(** C4: a call whose keywords include a name that the input spec does not
    declare fails with the [ValueError] that shows the first such name, in
    the order of the keywords; a call whose keywords are all declared but
    that leaves a declared name out fails with the [ValueError] that shows
    the first such name, in the order of the input spec; the undeclared
    name is thus reported first; in both cases the name occurs in the
    message of the error, and the two messages always differ. *)
Theorem call_reports_binding_mismatch f artifacts :
  let declared := keys (INPUT_SPEC (the_class f)) in
  ((∃ k, k ∈ keys artifacts ∧ k ∉ declared) →
   ∃ pre k post,
     keys artifacts = pre ++ k :: post ∧
     Forall (λ k', k' ∈ declared) pre ∧ (k ∉ declared) ∧
     (∃ msg, BaseStep_call artifacts f = (Raise (ValueError msg), f) ∧
             msg = msg_undefined k declared ∧ occurs k msg)) ∧
  ((∀ k, k ∈ keys artifacts → k ∈ declared) →
   (∃ k, k ∈ declared ∧ k ∉ keys artifacts) →
   ∃ pre k post,
     declared = pre ++ k :: post ∧
     Forall (λ k', k' ∈ keys artifacts) pre ∧ (k ∉ keys artifacts) ∧
     (∃ msg, BaseStep_call artifacts f = (Raise (ValueError msg), f) ∧
             msg = msg_unconnected k ∧ occurs k msg)) ∧
  (∀ k k', msg_undefined k declared ≠ msg_unconnected k').
Proof.
  intros declared. split_and!.
  - intros Hex.
    apply (first_failing (λ k, k ∈ declared)) in Hex
      as (pre & k & post & Hsplit & Hpre & Hk).
    exists pre, k, post. split_and!; [done..|].
    exists (msg_undefined k declared).
    split_and!; [|done|apply occurs_after, occurs_head].
    unfold BaseStep_call. unfold bind at 1. unfold gets at 1. simpl.
    unfold bind at 1. rewrite Hsplit.
    erewrite for_each_raise; [done| |].
    + eapply Forall_impl; [exact Hpre|]. intros k' Hk'. simpl.
      by apply dict_mem_true in Hk' as ->.
    + simpl. by apply dict_mem_false in Hk as ->.
  - intros Hall Hex.
    apply (first_failing (λ k, k ∈ keys artifacts)) in Hex
      as (pre & k & post & Hsplit & Hpre & Hk).
    exists pre, k, post. split_and!; [done..|].
    exists (msg_unconnected k).
    split_and!; [|done|apply occurs_after, occurs_head].
    unfold BaseStep_call. unfold bind at 1. unfold gets at 1. simpl.
    unfold bind at 1. rewrite for_each_pass.
    2:{ apply Forall_forall. intros k' Hk'. apply Hall in Hk'.
        by apply dict_mem_true in Hk' as ->. }
    unfold bind at 1. fold declared. rewrite Hsplit.
    erewrite for_each_raise; [done| |].
    + eapply Forall_impl; [exact Hpre|]. intros k' Hk'. simpl.
      by apply dict_mem_true in Hk' as ->.
    + simpl. by apply dict_mem_false in Hk as ->.
  - intros k k'. apply binding_messages_differ.
Qed.

(** C1 (amended): when the keywords of a call are exactly the names of the
    input spec, none of them is also a key of the instance's parameter
    spec, and the component class returns a component that exposes every
    name of the output spec, the call succeeds, stores the component and
    returns the channels of the output spec's names in their declared
    order: the one channel itself when the output spec has one entry, the
    list of channels otherwise. *)
Theorem call_returns_declared_outputs f artifacts make component :
  (∀ k, k ∈ keys artifacts ↔ k ∈ keys (INPUT_SPEC (the_class f))) →
  (∀ k, k ∈ keys (PARAM_SPEC (the_self f)) → k ∉ keys artifacts) →
  _BaseStep__component_class (the_self f) = Some make →
  make ((prod_map id KArtifact <$> artifacts)
        ++ (prod_map id KParam <$> PARAM_SPEC (the_self f))) = Ok component →
  (∀ k, k ∈ keys (OUTPUT_SPEC (the_class f)) → is_Some (outputs component !! k)) →
  ∃ channels r,
    BaseStep_call artifacts f = (Ok r, set_component (Some component) f) ∧
    Forall2 (λ k ch, outputs component !! k = Some ch)
            (keys (OUTPUT_SPEC (the_class f))) channels ∧
    ((length (OUTPUT_SPEC (the_class f)) = 1 ∧
      ∃ one, channels = [one] ∧ r = Single one) ∨
     (length (OUTPUT_SPEC (the_class f)) ≠ 1 ∧ r = Many channels)).
Proof.
  intros Hkeys Hdisj Hmake Hcomp Hexposed.
  destruct (resolve_returns_exposed (keys (OUTPUT_SPEC (the_class f))) []
              (set_component (Some component) f) component)
    as (channels & Hall & Hrun); [done|done|].
  assert (length channels = length (OUTPUT_SPEC (the_class f))) as Hlen.
  { apply Forall2_length in Hall. unfold keys in Hall.
    by rewrite length_fmap in Hall. }
  exists channels, (match channels with [one] => Single one | _ => Many channels end).
  split_and!; [|done|].
  - unfold BaseStep_call. unfold bind at 1. unfold gets at 1. simpl.
    unfold bind at 1. rewrite for_each_pass.
    2:{ apply Forall_forall. intros k Hk. apply Hkeys in Hk.
        by apply dict_mem_true in Hk as ->. }
    unfold bind at 1. rewrite for_each_pass.
    2:{ apply Forall_forall. intros k Hk. apply Hkeys in Hk.
        by apply dict_mem_true in Hk as ->. }
    destruct f as [cls [mats comp0 params cc]]. simpl in *. subst cc.
    run. rewrite merge_kwargs_disjoint.
    2:{ intros k. rewrite !keys_tagged. apply Hdisj. }
    rewrite Hcomp, Hrun. simpl. by destruct channels as [|? [|? ?]].
  - rewrite <-Hlen. destruct channels as [|one [|? ?]]; simpl.
    + right. split; [lia|done].
    + left. split; [done|]. by exists one.
    + right. split; [lia|done].
Qed.

End InvocationFacts.

(** ** Instance construction *)

Section ConstructionFacts.
Context `{Collaborators}.
Implicit Types (f : frame) (cls : step_class) (s : step) (v c : pyval).

Ltac run := unfold bind, lift, gets, modify, raise, ret; simpl.

(** One turn of the loop over the keyword values. *)
Lemma find_config_cons v (rest : list pyval) (config : option pyval) f :
  find_config (v :: rest) config f =
    let config' := if isinstance_BaseStepConfig v then Some v else config in
    match config' with
    | None => (Raise (UnboundLocalError msg_config_unbound), f)
    | Some c =>
        match serialized c with
        | Raise e =>
            (Raise (if is_RuntimeError e
                    then StepInterfaceError msg_cannot_serialize else e), f)
        | Ok [] => (Raise (AssertionError msg_config_not_found), set_PARAM_SPEC [] f)
        | Ok p => find_config rest config' (set_PARAM_SPEC p f)
        end
    end.
Proof.
  simpl. unfold bind at 1. unfold try_except_RuntimeError, serialized.
  destruct (if isinstance_BaseStepConfig v then Some v else config) as [c|]; run; [|done].
  destruct (model_dict c) as [d|e]; simpl.
  - destruct (dumps_items d []) as [[|kv p]|e]; simpl; [done|done|].
    by destruct (is_RuntimeError e).
  - by destruct (is_RuntimeError e).
Qed.

(** However the loop ends, the parameter spec is the one it started with or
    the complete serialization of one of the configuration values. *)
Lemma param_spec_never_partial (vs : list pyval) (config : option pyval) f :
  let f' := (find_config vs config f).2 in
  PARAM_SPEC (the_self f') = PARAM_SPEC (the_self f) ∨
  ∃ c, (c ∈ vs ∨ config = Some c) ∧
       serialized c = Ok (PARAM_SPEC (the_self f')).
Proof.
  revert config f. induction vs as [|v vs IH]; intros config f; [by left|].
  rewrite find_config_cons. simpl.
  destruct (if isinstance_BaseStepConfig v then Some v else config) as [c|] eqn:Hc;
    [|by left].
  assert (c ∈ v :: vs ∨ config = Some c) as Hfrom.
  { destruct (isinstance_BaseStepConfig v); simplify_eq; [left; by left|by right]. }
  destruct (serialized c) as [[|kv p]|e] eqn:Hser; simpl; [right; eauto|..|by left].
  destruct (IH (Some c) (set_PARAM_SPEC (kv :: p) f)) as [Hsame|(c' & Hc' & Hser')].
  - right. exists c. split; [done|]. by rewrite Hsame.
  - right. exists c'. split; [|done].
    destruct Hc' as [?|[= ->]]; [left; by right|done].
Qed.

#[local] Opaque find_config.

(** [__init__] on a first keyword value that is a configuration whose
    serialization raises: only a [RuntimeError] becomes the
    [StepInterfaceError]; any other exception leaves [__init__] as it is. *)
Lemma init_serialization_failure cls s name c (rest : odict pyval) config_type e :
  CONFIG cls = Some (OClass config_type) →
  isinstance_BaseStepConfig c = true →
  serialized c = Raise e →
  BaseStep_init [] ((name, c) :: rest) (Frame cls s) =
    (Raise (if is_RuntimeError e
            then StepInterfaceError msg_cannot_serialize else e),
     Frame cls (Step None None [] (_BaseStep__component_class s))).
Proof.
  intros Hcfg Hc Hser. unfold BaseStep_init. run. rewrite Hcfg.
  rewrite find_config_cons. simpl. by rewrite Hc, Hser.
Qed.

(** [__init__] of a class with a configuration type, on a first keyword
    value that is not a configuration: [config] is read unbound, whether or
    not a later keyword holds a configuration. *)
Lemma init_first_keyword_not_a_config cls s name v (rest : odict pyval) config_type :
  CONFIG cls = Some (OClass config_type) →
  isinstance_BaseStepConfig v = false →
  BaseStep_init [] ((name, v) :: rest) (Frame cls s) =
    (Raise (UnboundLocalError msg_config_unbound),
     Frame cls (Step None None [] (_BaseStep__component_class s))).
Proof.
  intros Hcfg Hv. unfold BaseStep_init. run. rewrite Hcfg.
  rewrite find_config_cons. simpl. by rewrite Hv.
Qed.

#[local] Transparent find_config.

(** [__init__] without any argument never enters the loop. *)
Lemma init_no_arguments cls s make :
  generate_component cls (Step None None [] (_BaseStep__component_class s)) = Ok make →
  BaseStep_init [] [] (Frame cls s) =
    (Ok tt, Frame cls (Step None None [] (Some make))).
Proof.
  intros Hgen. unfold BaseStep_init. run.
  destruct (CONFIG cls) as [[]|]; simpl; by rewrite Hgen.
Qed.

(** *** Methods and the class of their receiver *)

Lemma preserves_ret {A} (a : A) : preserves_class (ret a).
Proof. done. Qed.

Lemma preserves_raise {A} e : preserves_class (raise (A:=A) e).
Proof. done. Qed.

Lemma preserves_lift {A} (r : result A) : preserves_class (lift r).
Proof. done. Qed.

Lemma preserves_gets {A} (g : frame → A) : preserves_class (gets g).
Proof. done. Qed.

Lemma preserves_set_materializers m : preserves_class (modify (set_materializers m)).
Proof. done. Qed.

Lemma preserves_set_component o : preserves_class (modify (set_component o)).
Proof. done. Qed.

Lemma preserves_set_PARAM_SPEC p : preserves_class (modify (set_PARAM_SPEC p)).
Proof. done. Qed.

Lemma preserves_set_component_class o : preserves_class (modify (set_component_class o)).
Proof. done. Qed.

Lemma preserves_bind {A B} (m : M frame A) (k : A → M frame B) :
  preserves_class m → (∀ a, preserves_class (k a)) → preserves_class (bind m k).
Proof.
  intros Hm Hk f. unfold bind. specialize (Hm f).
  destruct (m f) as [[a|e] f']; simpl in *; [|done].
  by rewrite Hk.
Qed.

Lemma preserves_for_each {A} (l : list A) (body : A → M frame unit) :
  (∀ x, preserves_class (body x)) → preserves_class (for_each l body).
Proof.
  intros Hbody. induction l as [|x l IH]; simpl.
  - apply preserves_ret.
  - apply preserves_bind; [apply Hbody|done].
Qed.

Lemma preserves_try {A} (m : M frame A) e :
  preserves_class m → preserves_class (try_except_RuntimeError m e).
Proof.
  intros Hm f. unfold try_except_RuntimeError. specialize (Hm f).
  destruct (m f) as [[a|e'] f']; simpl in *; [done|].
  by destruct (is_RuntimeError e').
Qed.

Create HintDb class_frame.
#[local] Hint Resolve preserves_ret preserves_raise preserves_lift preserves_gets
  preserves_set_materializers preserves_set_component preserves_set_PARAM_SPEC
  preserves_set_component_class : class_frame.

Ltac preserves :=
  repeat first
    [ progress intros
    | apply preserves_bind
    | apply preserves_for_each
    | apply preserves_try
    | solve [auto with class_frame]
    | match goal with
      | |- preserves_class (match ?x with _ => _ end) => destruct x
      | |- preserves_class (if ?b then _ else _) => destruct b
      end ].

Lemma preserves_find_config (vs : list pyval) (config : option pyval) :
  preserves_class (find_config vs config).
Proof.
  revert config. induction vs as [|v vs IH]; intros config; simpl; preserves.
Qed.

Lemma preserves_init (args : list pyval) (kwargs : odict pyval) :
  preserves_class (BaseStep_init args kwargs).
Proof.
  unfold BaseStep_init. preserves; apply preserves_find_config.
Qed.

Lemma preserves_resolve_returns (ks : list string) (acc : list channel) :
  preserves_class (resolve_returns ks acc).
Proof.
  revert acc. induction ks as [|k ks IH]; intros acc; simpl; [preserves|].
  apply preserves_bind; [unfold output_channel; preserves|done].
Qed.

Lemma preserves_call (artifacts : odict channel) :
  preserves_class (BaseStep_call artifacts).
Proof.
  unfold BaseStep_call. preserves; apply preserves_resolve_returns.
Qed.

Lemma preserves_with_materializers (m : odict pyclass) :
  preserves_class (BaseStep_with_materializers m).
Proof. unfold BaseStep_with_materializers. preserves. Qed.

(** Running a class-preserving method changes at most its receiver. *)
Lemma run_method_frame {A} (c i : nat) s (m : M frame A) keep (w : world) :
  preserves_class m →
  classes (run_method c i s m keep w) = classes w ∧
  ∀ j, j ≠ i → instances (run_method c i s m keep w) !! j = instances w !! j.
Proof.
  intros Hm. unfold run_method.
  destruct (classes w !! c) as [cls|] eqn:Hcls; [|done].
  specialize (Hm (Frame cls s)). destruct (m (Frame cls s)) as [r f']. simpl in *.
  split.
  - rewrite Hm. by apply insert_id.
  - intros j Hj. destruct (keep r); [|done]. by rewrite lookup_insert_ne.
Qed.

Lemma exec_frame (w : world) (op : operation) :
  classes (exec w op) = classes w ∧
  ∀ j, j ≠ receiver op w → instances (exec w op) !! j = instances w !! j.
Proof.
  destruct op as [c args kwargs|i artifacts|i m]; simpl.
  - apply run_method_frame, preserves_init.
  - destruct (instances w !! i) as [[c s]|]; [|done].
    apply run_method_frame, preserves_call.
  - destruct (instances w !! i) as [[c s]|]; [|done].
    apply run_method_frame, preserves_with_materializers.
Qed.

(** What an operation leaves at its receiver depends on the classes and on
    the receiver alone, not on any other instance of the store. *)
Lemma exec_reads_only_receiver (w w' : world) (op : operation) :
  classes w' = classes w →
  instances w' !! receiver op w' = instances w !! receiver op w →
  instances (exec w' op) !! receiver op w'
    = instances (exec w op) !! receiver op w.
Proof.
  intros Hcls Hrecv. destruct op as [n args kwargs|i artifacts|i m]; simpl in *.
  - unfold run_method. rewrite Hcls.
    destruct (classes w !! n) as [cls|]; [|done].
    destruct (BaseStep_init args kwargs (Frame cls unbuilt)) as [r f]. simpl.
    destruct (is_Ok r); [|done]. by rewrite !lookup_insert_eq.
  - rewrite Hrecv. destruct (instances w !! i) as [[n s]|] eqn:Hi; [|congruence].
    unfold run_method. rewrite Hcls.
    destruct (classes w !! n) as [cls|]; [|congruence].
    destruct (BaseStep_call artifacts (Frame cls s)) as [r f]. simpl.
    by rewrite !lookup_insert_eq.
  - rewrite Hrecv. destruct (instances w !! i) as [[n s]|] eqn:Hi; [|congruence].
    unfold run_method. rewrite Hcls.
    destruct (classes w !! n) as [cls|]; [|congruence].
    destruct (BaseStep_with_materializers m (Frame cls s)) as [r f]. simpl.
    by rewrite !lookup_insert_eq.
Qed.

(** C10: the class-level specs are fixed when the class is constructed:
    constructing a further class leaves the stored classes as they are; no
    sequence of instance constructions, calls and materializer injections
    changes the input spec, the output spec or the configuration type of any
    class; an operation changes no instance other than its receiver; and
    what it leaves at its receiver depends on the classes and the receiver
    alone, so that instances share nothing but the classes. *)
Theorem class_specs_are_read_only (w : world) :
  (∀ spec (n : nat), is_Some (classes w !! n) →
     classes (define_class spec w) !! n = classes w !! n) ∧
  (∀ ops, classes (foldl exec w ops) = classes w) ∧
  (∀ op j, j ≠ receiver op w → instances (exec w op) !! j = instances w !! j) ∧
  (∀ op w', classes w' = classes w →
     instances w' !! receiver op w' = instances w !! receiver op w →
     instances (exec w' op) !! receiver op w'
       = instances (exec w op) !! receiver op w).
Proof.
  split_and!.
  - intros spec n Hc. unfold define_class.
    destruct (BaseStepMeta_new spec); [|done]. simpl.
    apply lookup_insert_ne. intros <-.
    apply elem_of_dom in Hc. by apply is_fresh in Hc.
  - intros ops. revert w. induction ops as [|op ops IH]; intros w; simpl; [done|].
    rewrite IH. apply exec_frame.
  - intros op j. apply exec_frame.
  - intros op w'. apply exec_reads_only_receiver.
Qed.

End ConstructionFacts.

(** ** The statements on the sample steps *)

Lemma trainer_class_constructed :
  BaseStepMeta_new (H:=reference) trainer_process = Ok trainer_class.
Proof. reflexivity. Qed.

Lemma trainer_process_params_ok : params_ok (H:=reference) trainer_process.
Proof. split; [reflexivity|vm_compute; lia]. Defined.

Lemma splitter_process_params_ok : params_ok (H:=reference) splitter_process.
Proof. split; [reflexivity|vm_compute; lia]. Defined.

Lemma socket_output_process_params_ok : params_ok (H:=reference) socket_output_process.
Proof. split; [reflexivity|vm_compute; lia]. Defined.

(** A parameter without annotation stops class construction inside
    [issubclass], before any classification error can be raised. *)
Lemma unannotated_parameter_is_a_TypeError :
  BaseStepMeta_new (H:=reference) unannotated_process =
    Raise (TypeError "issubclass() arg 1 must be a class").
Proof. reflexivity. Qed.

(** C1, witness: a trainer built with [TrainerConfig(epochs=3)] and called
    with its one input. *)
Lemma call_returns_declared_outputs_witness :
  ∃ channels r,
    BaseStep_call [("data", Channel 7)] plain_trainer =
      (Ok r, set_component (Some trainer_component) plain_trainer) ∧
    Forall2 (λ k ch, outputs trainer_component !! k = Some ch)
            (keys (OUTPUT_SPEC (the_class plain_trainer))) channels ∧
    ((length (OUTPUT_SPEC (the_class plain_trainer)) = 1 ∧
      ∃ one, channels = [one] ∧ r = Single one) ∨
     (length (OUTPUT_SPEC (the_class plain_trainer)) ≠ 1 ∧ r = Many channels)).
Proof.
  apply (call_returns_declared_outputs plain_trainer [("data", Channel 7)]
           (λ _, Ok trainer_component) trainer_component).
  - intros k. vm_compute. tauto.
  - intros k Hk Hk'. vm_compute in Hk, Hk'.
    apply list_elem_of_singleton in Hk as ->.
    by apply list_elem_of_singleton in Hk'.
  - reflexivity.
  - reflexivity.
  - intros k Hk. vm_compute in Hk. apply list_elem_of_singleton in Hk as ->.
    by exists (Channel 0).
Defined.

(** C4, witness: one keyword too many is reported as undefined, no keyword
    at all as the unconnected input. *)
Lemma call_reports_binding_mismatch_witness :
  (∃ pre k post,
     keys [("data", Channel 7); ("extra", Channel 8)] = pre ++ k :: post ∧
     Forall (λ k', k' ∈ keys (INPUT_SPEC (the_class plain_trainer))) pre ∧
     (k ∉ keys (INPUT_SPEC (the_class plain_trainer))) ∧
     (∃ msg,
        BaseStep_call [("data", Channel 7); ("extra", Channel 8)] plain_trainer =
          (Raise (ValueError msg), plain_trainer) ∧
        msg = msg_undefined k (keys (INPUT_SPEC (the_class plain_trainer))) ∧
        occurs k msg)) ∧
  (∃ pre k post,
     keys (INPUT_SPEC (the_class plain_trainer)) = pre ++ k :: post ∧
     Forall (λ k', k' ∈ keys ([] : odict channel)) pre ∧
     (k ∉ keys ([] : odict channel)) ∧
     (∃ msg,
        BaseStep_call [] plain_trainer = (Raise (ValueError msg), plain_trainer) ∧
        msg = msg_unconnected k ∧ occurs k msg)).
Proof.
  split.
  - apply (proj1 (call_reports_binding_mismatch plain_trainer
                    [("data", Channel 7); ("extra", Channel 8)])).
    exists "extra". split.
    + vm_compute. right. left.
    + vm_compute. intros Hin. by apply list_elem_of_singleton in Hin.
  - apply (proj1 (proj2 (call_reports_binding_mismatch plain_trainer []))).
    + intros k Hk. by apply elem_of_nil in Hk.
    + exists "data". split.
      * vm_compute. left.
      * apply not_elem_of_nil.
Defined.

(** C1, counterexample: [Trainer(config=TrainerConfig(data=3))(data=...)]:
    the keywords are exactly the input spec, and the call raises. *)
Lemma parameter_named_like_an_input :
  BaseStepMeta_new (H:=reference) trainer_process = Ok trainer_class ∧
  (BaseStep_init (H:=reference) [] [("config", clashing_config)] trainer_unbuilt).1
    = Ok tt ∧
  keys [("data", Channel 7)] = keys (INPUT_SPEC (the_class clashing_trainer)) ∧
  (BaseStep_call [("data", Channel 7)] clashing_trainer).1 =
    Raise (TypeError (msg_multiple_values "data")).
Proof. split_and!; reflexivity. Qed.

(** C2, witness: one configuration parameter succeeds, a second one is the
    conflict. *)
Lemma config_type_count_decides_witness :
  (∃ cls, BaseStepMeta_new (H:=reference) trainer_process = Ok cls) ∧
  BaseStepMeta_new (H:=reference) two_configs_process =
    Raise (StepInterfaceError msg_one_config).
Proof.
  split.
  - apply (config_type_count_decides trainer_process).
    + exact trainer_process_params_ok.
    + reflexivity.
  - apply (proj2 (config_type_count_decides two_configs_process) ["a"] "b" []);
      reflexivity.
Defined.

(** C2, counterexample: no configuration parameter at all and construction
    fails on the return annotation; two configuration parameters and the
    error is about the parameter before them. *)
Lemma config_count_does_not_decide_alone :
  (config_count socket_returning_process
                (process_args socket_returning_process) = 0 ∧
   BaseStepMeta_new (H:=reference) socket_returning_process =
     Raise (StepInterfaceError (msg_return_unregistered (OClass py_socket)))) ∧
  (config_count socket_then_configs_process
                (process_args socket_then_configs_process) = 2 ∧
   BaseStepMeta_new (H:=reference) socket_then_configs_process =
     Raise (StepInterfaceError (msg_unclassified (OClass py_socket) "conn")) ∧
   msg_unclassified (OClass py_socket) "conn" ≠ msg_one_config).
Proof. split_and!; try reflexivity. discriminate. Qed.

(** C3, witness: the trainer's input spec is its one artifact parameter. *)
Lemma input_spec_is_the_artifact_parameters_witness :
  ∃ cls, BaseStepMeta_new (H:=reference) trainer_process = Ok cls ∧
    (∀ k, k ∈ keys (INPUT_SPEC cls) ↔
          k ∈ process_args trainer_process ∧
          is_config_param trainer_process k = false) ∧
    (∀ k v, (k, v) ∈ INPUT_SPEC cls → v = BaseArtifact).
Proof.
  apply (input_spec_is_the_artifact_parameters trainer_process).
  - exact trainer_process_params_ok.
  - reflexivity.
Defined.

(** C3, counterexample: both parameters are annotated with the
    configuration type, and no input spec is produced; the one parameter is
    annotated with a registered type, and construction fails on the return
    annotation. *)
Lemma configuration_type_twice :
  (forallb (classifies (H:=reference) same_config_twice_process)
           (process_args same_config_twice_process) = true ∧
   BaseStepMeta_new (H:=reference) same_config_twice_process =
     Raise (StepInterfaceError msg_one_config)) ∧
  (forallb (classifies (H:=reference) data_to_socket_process)
           (process_args data_to_socket_process) = true ∧
   BaseStepMeta_new (H:=reference) data_to_socket_process =
     Raise (StepInterfaceError (msg_return_unregistered (OClass py_socket)))).
Proof. split_and!; reflexivity. Qed.

(** C5, witness: the trainer returns [int]. *)
Lemma single_return_has_the_fixed_name_witness :
  ∃ cls, BaseStepMeta_new (H:=reference) trainer_process = Ok cls ∧
         OUTPUT_SPEC cls = [("output", BaseArtifact)].
Proof.
  apply (single_return_has_the_fixed_name (H:=reference) trainer_process (OClass py_int)).
  - exact trainer_process_params_ok.
  - reflexivity.
  - discriminate.
  - discriminate.
  - reflexivity.
Defined.

(** C5, counterexample: the return annotation is the registered [int], and
    construction fails on an unregistered parameter, or on a second
    configuration parameter. *)
Lemma registered_return_unregistered_parameter :
  is_registered (Collaborators:=reference) (OClass py_int) = true ∧
  (annotation socket_taking_process "return" = OClass py_int ∧
   BaseStepMeta_new (H:=reference) socket_taking_process =
     Raise (StepInterfaceError (msg_unclassified (OClass py_socket) "conn"))) ∧
  (annotation two_configs_to_int_process "return" = OClass py_int ∧
   BaseStepMeta_new (H:=reference) two_configs_to_int_process =
     Raise (StepInterfaceError msg_one_config)).
Proof. split_and!; reflexivity. Qed.

(** C6, witness: two registered outputs in their order; an unregistered
    second output is reported. *)
Lemma multi_output_in_declaration_order_witness :
  (∃ cls, BaseStepMeta_new (H:=reference) splitter_process = Ok cls ∧
          keys (OUTPUT_SPEC cls) = ["total"; "label"] ∧
          length (OUTPUT_SPEC cls) = 2 ∧
          ∀ k v, (k, v) ∈ OUTPUT_SPEC cls → v = BaseArtifact) ∧
  (∃ msg,
     BaseStepMeta_new (H:=reference) socket_output_process =
       Raise (StepInterfaceError msg) ∧
     msg = msg_output_unregistered (OClass py_socket) "conn" ∧
     occurs "conn" msg ∧ occurs (py_str (OClass py_socket)) msg ∧
     ∀ c, OClass py_socket = OClass c → occurs (cls_name c) msg).
Proof.
  split.
  - apply (multi_output_in_declaration_order (H:=reference) splitter_process
             [("total", OClass py_int); ("label", OClass py_str_class)]).
    + exact splitter_process_params_ok.
    + reflexivity.
    + apply (bool_decide_unpack _). reflexivity.
    + reflexivity.
  - apply (proj2 (multi_output_in_declaration_order (H:=reference) socket_output_process
                    [("total", OClass py_int); ("conn", OClass py_socket)]
                    socket_output_process_params_ok eq_refl)
                 [("total", OClass py_int)] "conn" (OClass py_socket) []);
      reflexivity.
Defined.

(** C6, counterexample: an [Output] of registered types, and construction
    fails on an unregistered parameter, or on a second configuration
    parameter. *)
Lemma registered_outputs_unregistered_parameter :
  (annotation socket_splitter_process "return" =
     OOutput [("total", OClass py_int); ("label", OClass py_str_class)] ∧
   forallb (λ it, is_registered (Collaborators:=reference) it.2)
           [("total", OClass py_int); ("label", OClass py_str_class)] = true ∧
   BaseStepMeta_new (H:=reference) socket_splitter_process =
     Raise (StepInterfaceError (msg_unclassified (OClass py_socket) "conn"))) ∧
  (annotation two_configs_to_output_process "return" =
     OOutput [("total", OClass py_int)] ∧
   BaseStepMeta_new (H:=reference) two_configs_to_output_process =
     Raise (StepInterfaceError msg_one_config)).
Proof. split_and!; reflexivity. Qed.

(** C7, witness: a socket parameter after a registered one. *)
Lemma unclassified_parameter_is_reported_witness :
  ∃ msg,
    BaseStepMeta_new (H:=reference) data_then_socket_process =
      Raise (StepInterfaceError msg) ∧
    msg = msg_unclassified (OClass py_socket) "conn" ∧
    occurs "conn" msg ∧ occurs (py_str (OClass py_socket)) msg ∧
    occurs (cls_name py_socket) msg.
Proof.
  apply (unclassified_parameter_is_reported (H:=reference) data_then_socket_process
           ["data"] "conn" [] py_socket); try reflexivity.
  vm_compute. lia.
Defined.

(** C7, counterexample: a socket parameter is neither a configuration nor
    registered; after two configuration parameters the error is the one
    about the two configurations, and after another socket parameter the
    error shows that one. *)
Lemma unclassified_parameter_after_two_configs :
  subclass_of py_socket BaseStepConfig_name = false ∧
  is_registered (Collaborators:=reference) (OClass py_socket) = false ∧
  (annotation configs_then_socket_process "conn" = OClass py_socket ∧
   BaseStepMeta_new (H:=reference) configs_then_socket_process =
     Raise (StepInterfaceError msg_one_config) ∧
   msg_one_config ≠ msg_unclassified (OClass py_socket) "conn") ∧
  (annotation two_sockets_process "peer" = OClass py_socket ∧
   BaseStepMeta_new (H:=reference) two_sockets_process =
     Raise (StepInterfaceError (msg_unclassified (OClass py_socket) "conn")) ∧
   msg_unclassified (OClass py_socket) "conn"
     ≠ msg_unclassified (OClass py_socket) "peer").
Proof. split_and!; try reflexivity; discriminate. Qed.

(** C8: a class that declares a configuration type, instantiated without
    any keyword argument: [__init__] completes and the parameter spec is
    empty. *)
Theorem init_without_keywords_completes :
  CONFIG trainer_class = Some (OClass TrainerConfig) ∧
  (BaseStep_init (H:=reference) [] [] trainer_unbuilt).1 = Ok tt ∧
  PARAM_SPEC (the_self (BaseStep_init (H:=reference) [] [] trainer_unbuilt).2) = [].
Proof. split_and!; reflexivity. Qed.

(** C9: a configuration with a [datetime] field: [json.dumps] raises a
    [TypeError], which [except RuntimeError] does not catch, so [__init__]
    raises that [TypeError] and not the [StepInterfaceError]; the parameter
    spec is left empty. *)
Theorem unserializable_field_raises_TypeError :
  BaseStep_init (H:=reference) [] [("config", dated_config)] trainer_unbuilt =
    (Raise (TypeError "Object of type datetime is not JSON serializable"),
     Frame trainer_class (Step None None [] None)).
Proof. reflexivity. Qed.

(** C10, witness: in a store with two trainers, defining the class again
    leaves the stored class, and a call on the first trainer leaves the
    class and the second trainer, as they are, and leaves the first trainer
    as it does in the store that holds the first trainer only. *)
Lemma class_specs_are_read_only_witness :
  classes (define_class (H:=reference) trainer_process two_trainers) !! 0
    = classes two_trainers !! 0 ∧
  classes (foldl (exec (H:=reference)) two_trainers
                 [Call 0 [("data", Channel 7)]; Construct 0 [] [];
                  WithMaterializers 1 [("data", py_int)]])
    = classes two_trainers ∧
  instances (exec (H:=reference) two_trainers (Call 0 [("data", Channel 7)])) !! 1
    = instances two_trainers !! 1 ∧
  instances (exec (H:=reference) one_trainer (Call 0 [("data", Channel 7)])) !! 0
    = instances (exec (H:=reference) two_trainers (Call 0 [("data", Channel 7)])) !! 0.
Proof.
  destruct (class_specs_are_read_only (H:=reference) two_trainers)
    as (Hdefine & Hops & Hother & Hlocal).
  split_and!.
  - apply Hdefine. by exists trainer_class.
  - apply Hops.
  - apply Hother. simpl. lia.
  - apply (Hlocal (Call 0 [("data", Channel 7)]) one_trainer); reflexivity.
Defined.

(** ** Further properties of class construction *)

Section ClassConstructionMore.
Context `{Collaborators}.
Implicit Types (spec : FullArgSpec) (cls : step_class) (a k : string) (l : list string).

Ltac run := unfold bind, lift, gets, modify, raise, ret; simpl.

(** An exception that leaves a loop was raised by its body. *)
Lemma for_each_raise_inv {St A} (P : exn → Prop) (body : A → M St unit)
    (xs : list A) (s s' : St) e :
  (∀ x s e s', body x s = (Raise e, s') → P e) →
  for_each xs body s = (Raise e, s') → P e.
Proof.
  intros Hbody. revert s. induction xs as [|x xs IH]; intros s; simpl; [done|].
  unfold bind. destruct (body x s) as [[[]|e0] s0] eqn:Hx.
  - apply IH.
  - intros [= <- <-]. by eapply Hbody.
Qed.

Lemma classify_arg_rejects spec a cls :
  classifies spec a = false →
  ∃ e, classify_arg spec a cls = (Raise e, cls) ∧ construction_error e.
Proof.
  unfold classifies, is_config_param, is_artifact_param, classify_arg.
  destruct (annotation spec a) as [|c|items|shown]; intros Hc.
  1,3,4: eexists; split; [reflexivity|by right].
  destruct (subclass_of c BaseStepConfig_name) eqn:Hs; [done|]. simpl in Hc.
  run. rewrite Hs, Hc. eexists. split; [done|]. left. eauto.
Qed.

Lemma classify_arg_error spec a cls cls' e :
  classify_arg spec a cls = (Raise e, cls') → construction_error e.
Proof.
  destruct (classifies spec a) eqn:Hcl.
  - unfold classifies in Hcl. destruct (is_config_param spec a) eqn:Hc; simpl in Hcl.
    + destruct (CONFIG cls) eqn:Hcfg.
      * rewrite classify_arg_second_config by eauto. intros [= <- _]. left. eauto.
      * by rewrite classify_arg_config.
    + by rewrite classify_arg_artifact.
  - destruct (classify_arg_rejects spec a cls Hcl) as (e' & -> & He').
    by intros [= <- _].
Qed.

(** A parameter loop that ends normally has classified every parameter and
    met at most one configuration. *)
Lemma classify_loop_inv spec l cls cls' :
  for_each l (classify_arg spec) cls = (Ok tt, cls') →
  forallb (classifies spec) l = true ∧
  config_count spec l + match CONFIG cls with Some _ => 1 | None => 0 end ≤ 1.
Proof.
  unfold config_count. revert cls. induction l as [|a l IH]; intros cls; simpl.
  - intros _. split; [done|]. destruct (CONFIG cls); lia.
  - unfold bind. destruct (classifies spec a) eqn:Hcl.
    + unfold classifies in Hcl.
      destruct (is_config_param spec a) eqn:Hc; simpl in *.
      * destruct (CONFIG cls) eqn:Hcfg.
        -- by rewrite classify_arg_second_config by eauto.
        -- rewrite classify_arg_config by done. intros Hrest.
           apply IH in Hrest as [Hall Hcount]. simpl in Hcount. split; [done|lia].
      * rewrite classify_arg_artifact by done. intros Hrest.
        by apply IH in Hrest as [Hall Hcount].
    + by destruct (classify_arg_rejects spec a cls Hcl) as (e & -> & _).
Qed.

Lemma register_output_error (it : string * pyobj) cls cls' e :
  register_output it cls = (Raise e, cls') → construction_error e.
Proof.
  unfold register_output. destruct (is_registered it.2); run; [done|].
  intros [= <- _]. left. eauto.
Qed.

Lemma register_loop_inv (items : list (string * pyobj)) cls cls' :
  for_each items register_output cls = (Ok tt, cls') →
  forallb (λ it, is_registered it.2) items = true.
Proof.
  revert cls. induction items as [|[n t] items IH]; intros cls; simpl; [done|].
  unfold bind, register_output. simpl. destruct (is_registered t); run; [|done].
  apply IH.
Qed.

Lemma infer_returns_inv spec cls cls' :
  infer_returns spec cls = (Ok tt, cls') → return_ok spec = true.
Proof.
  unfold infer_returns, return_ok.
  destruct (annotation spec "return") as [|c|items|shown]; [done| | |].
  - by destruct (is_registered (OClass c)).
  - apply register_loop_inv.
  - by destruct (is_registered (OOther shown)).
Qed.

Lemma infer_returns_error spec cls cls' e :
  infer_returns spec cls = (Raise e, cls') → construction_error e.
Proof.
  unfold infer_returns.
  destruct (annotation spec "return") as [|c|items|shown]; [done| | |].
  - destruct (is_registered (OClass c)); run; [done|]. intros [= <- _]. left. eauto.
  - apply for_each_raise_inv. intros it s e0 s'. apply register_output_error.
  - destruct (is_registered (OOther shown)); run; [done|]. intros [= <- _]. left. eauto.
Qed.

Lemma new_ok_inv spec cls :
  BaseStepMeta_new spec = Ok cls → params_ok spec ∧ return_ok spec = true.
Proof.
  unfold BaseStepMeta_new, new_body, bind.
  destruct (for_each (process_args spec) (classify_arg spec) (StepClass [] [] None))
    as [[[]|e] cls1] eqn:Hloop; [|done].
  destruct (infer_returns spec cls1) as [[[]|e] cls2] eqn:Hret; [|done].
  intros _. apply classify_loop_inv in Hloop as [Hall Hcount]. simpl in Hcount.
  apply infer_returns_inv in Hret. split; [split; [done|lia]|done].
Qed.

(** X1: class construction returns a class exactly when every parameter is
    annotated with a configuration class or a registered class, at most one
    of them with a configuration class, and the return annotation is absent,
    a registered object or an [Output] of registered types. *)
Theorem construction_succeeds_iff_signature_valid spec :
  (∃ cls, BaseStepMeta_new spec = Ok cls) ↔
  params_ok spec ∧ return_ok spec = true.
Proof.
  split.
  - intros [cls Hcls]. by eapply new_ok_inv.
  - intros [Hp Hr]. rewrite new_after_params by done.
    destruct (infer_returns_ok spec
                (StepClass (inputs_after spec (process_args spec) []) []
                           (config_after spec (process_args spec) None)) Hr)
      as [out ->]. eauto.
Qed.

Lemma NoDup_drop_middle {A} (l1 l2 : list A) x :
  NoDup (l1 ++ x :: l2) → NoDup (l1 ++ l2).
Proof. rewrite <-Permutation_middle. by intros [_ ?]%NoDup_cons. Qed.

Lemma inputs_after_distinct spec l (d : odict pyclass) :
  NoDup (keys d ++ l) →
  inputs_after spec l d =
    d ++ ((λ a, (a, BaseArtifact))
            <$> List.filter (λ a, negb (is_config_param spec a)) l).
Proof.
  revert d. induction l as [|a l IH]; intros d Hnd; simpl.
  - by rewrite app_nil_r.
  - destruct (is_config_param spec a); simpl.
    + apply IH. by eapply NoDup_drop_middle.
    + rewrite dict_update_fresh.
      2:{ apply NoDup_app in Hnd as (_ & Hdisj & _). intros Hin.
          apply (Hdisj _ Hin). by left. }
      rewrite IH, <-app_assoc; [done|].
      unfold keys. rewrite fmap_app, <-app_assoc. done.
Qed.

Lemma config_after_no_config spec l (c : option pyobj) :
  config_count spec l = 0 → config_after spec l c = c.
Proof.
  unfold config_count. revert c. induction l as [|a l IH]; intros c; simpl; [done|].
  destruct (is_config_param spec a); simpl; [done|apply IH].
Qed.

Lemma config_after_first spec l :
  config_count spec l ≤ 1 →
  config_after spec l None = annotation spec <$> List.find (is_config_param spec) l.
Proof.
  unfold config_count. induction l as [|a l IH]; simpl; [done|].
  destruct (is_config_param spec a); simpl; intros Hn.
  - apply config_after_no_config. unfold config_count. lia.
  - by apply IH.
Qed.

(** X3: for parameters with distinct names, the input spec of the
    constructed class lists the parameters that are not configuration-typed
    in the order of the signature, each mapped to [BaseArtifact]. *)
Theorem input_spec_in_signature_order spec :
  params_ok spec → return_ok spec = true → NoDup (process_args spec) →
  ∃ cls, BaseStepMeta_new spec = Ok cls ∧
         INPUT_SPEC cls = (λ a, (a, BaseArtifact)) <$> artifact_params spec.
Proof.
  intros Hp Hr Hnd. rewrite new_after_params by done.
  destruct (infer_returns_ok spec
              (StepClass (inputs_after spec (process_args spec) []) []
                         (config_after spec (process_args spec) None)) Hr)
    as [out ->]. simpl.
  eexists. split; [done|]. simpl. by rewrite inputs_after_distinct.
Qed.

(** X4: the configuration type of the constructed class is the annotation of
    its configuration-typed parameter, and [None] when no parameter is
    configuration-typed. *)
Theorem config_is_the_configuration_annotation spec :
  params_ok spec → return_ok spec = true →
  ∃ cls, BaseStepMeta_new spec = Ok cls ∧ CONFIG cls = declared_config spec.
Proof.
  intros Hp Hr. rewrite new_after_params by done.
  destruct (infer_returns_ok spec
              (StepClass (inputs_after spec (process_args spec) []) []
                         (config_after spec (process_args spec) None)) Hr)
    as [out ->]. simpl.
  eexists. split; [done|]. simpl. apply config_after_first. by destruct Hp.
Qed.

(** X5: a signature without return annotation, or annotated to return
    [None], gives a class with an empty output spec. *)
Theorem no_return_annotation_no_outputs spec :
  params_ok spec → annotation spec "return" = ONone →
  ∃ cls, BaseStepMeta_new spec = Ok cls ∧ OUTPUT_SPEC cls = [].
Proof.
  intros Hp Hr. rewrite new_after_params by done.
  unfold infer_returns. rewrite Hr. simpl. eauto.
Qed.

(** X6: a return annotation that is a class without registered
    materializer makes class construction fail, once the parameters have
    classified, with the error that shows the class: its name occurs in the
    message of the error. *)
Theorem unregistered_return_is_reported spec c :
  params_ok spec →
  annotation spec "return" = OClass c →
  is_registered (OClass c) = false →
  ∃ msg, BaseStepMeta_new spec = Raise (StepInterfaceError msg) ∧
         msg = msg_return_unregistered (OClass c) ∧
         occurs (py_str (OClass c)) msg ∧ occurs (cls_name c) msg.
Proof.
  intros Hp Hr Hreg. exists (msg_return_unregistered (OClass c)).
  split_and!; [|done| |].
  - rewrite new_after_params by done.
    unfold infer_returns. by rewrite Hr, Hreg.
  - apply occurs_after, occurs_head.
  - apply occurs_after, occurs_before, occurs_after, occurs_head.
Qed.

(** X7: a parameter whose annotation is missing or is not a class, reached
    after parameters that all classify, makes class construction fail with
    the [TypeError] of [issubclass], not with a [StepInterfaceError]. *)
Theorem non_class_annotation_is_a_TypeError spec pre a post :
  process_args spec = pre ++ a :: post →
  forallb (classifies spec) pre = true →
  config_count spec pre ≤ 1 →
  (∀ c, annotation spec a ≠ OClass c) →
  BaseStepMeta_new spec = Raise (TypeError "issubclass() arg 1 must be a class").
Proof.
  intros Hargs Hpre Hcount Ha.
  apply (new_raises_in_params spec pre a post); [done..|].
  intros cls _. by apply classify_arg_not_a_class.
Qed.

Lemma keys_dict_update_NoDup {V} k (v : V) (d : odict V) :
  NoDup (keys d) → NoDup (keys (dict_update k v d)).
Proof.
  induction d as [|[k0 v0] d IH]; simpl.
  - intros _. apply NoDup_singleton.
  - intros [Hk0 Hd]%NoDup_cons. destruct (decide (k0 = k)) as [->|Hne]; simpl.
    + by apply NoDup_cons.
    + apply NoDup_cons. split; [|by apply IH].
      fold (keys (dict_update k v d)). rewrite keys_dict_update_elem.
      intros [?|?]; [congruence|done].
Qed.

Lemma inputs_after_NoDup spec l (d : odict pyclass) :
  NoDup (keys d) → NoDup (keys (inputs_after spec l d)).
Proof.
  revert d. induction l as [|a l IH]; intros d Hd; simpl; [done|].
  apply IH. destruct (is_config_param spec a); [done|].
  by apply keys_dict_update_NoDup.
Qed.

Lemma outputs_after_NoDup (items : list (string * pyobj)) (d : odict pyclass) :
  NoDup (keys d) → NoDup (keys (outputs_after items d)).
Proof.
  revert d. induction items as [|it items IH]; intros d Hd; simpl; [done|].
  by apply IH, keys_dict_update_NoDup.
Qed.

Lemma outputs_after_values (items : list (string * pyobj)) (d : odict pyclass) k v :
  (k, v) ∈ outputs_after items d → (k, v) ∈ d ∨ v = BaseArtifact.
Proof.
  revert d. induction items as [|it items IH]; intros d; simpl; [by left|].
  intros Hin. apply IH in Hin as [Hin|?]; [|by right].
  by apply dict_update_values in Hin.
Qed.

Lemma config_after_is_config_class spec l (c0 : option pyobj) :
  (c0 = None ∨ ∃ c, c0 = Some (OClass c) ∧ subclass_of c BaseStepConfig_name = true) →
  config_after spec l c0 = None ∨
  ∃ c, config_after spec l c0 = Some (OClass c) ∧
       subclass_of c BaseStepConfig_name = true.
Proof.
  revert c0. induction l as [|a l IH]; intros c0 Hc0; simpl; [done|].
  apply IH. unfold is_config_param.
  destruct (annotation spec a) as [|c| |]; try done.
  destruct (subclass_of c BaseStepConfig_name) eqn:Hs; [|done]. right. eauto.
Qed.

(** X8: every class that construction returns is well formed: the keys of
    its input spec and of its output spec are distinct, every entry maps to
    [BaseArtifact], every input is a parameter of the signature, and its
    configuration type is [None] or a subclass of [BaseStepConfig]. *)
Theorem constructed_class_is_well_formed spec cls :
  BaseStepMeta_new spec = Ok cls →
  NoDup (keys (INPUT_SPEC cls)) ∧ NoDup (keys (OUTPUT_SPEC cls)) ∧
  (∀ k v, (k, v) ∈ INPUT_SPEC cls ∨ (k, v) ∈ OUTPUT_SPEC cls → v = BaseArtifact) ∧
  (∀ k, k ∈ keys (INPUT_SPEC cls) → k ∈ process_args spec) ∧
  (CONFIG cls = None ∨
   ∃ c, CONFIG cls = Some (OClass c) ∧ subclass_of c BaseStepConfig_name = true).
Proof.
  intros Hnew. destruct (new_ok_inv spec cls Hnew) as [Hp Hr].
  rewrite new_after_params in Hnew by done.
  set (cls1 := StepClass (inputs_after spec (process_args spec) []) []
                         (config_after spec (process_args spec) None)) in Hnew.
  assert (∃ out, infer_returns spec cls1 = (Ok tt, StepClass (INPUT_SPEC cls1) out (CONFIG cls1))
                 ∧ NoDup (keys out) ∧ ∀ k v, (k, v) ∈ out → v = BaseArtifact)
    as (out & Hret & Hnd & Hval).
  { unfold infer_returns, return_ok in *.
    destruct (annotation spec "return") as [|c|items|shown].
    - exists []. split_and!; [done|constructor|]. intros k v Hin. by apply elem_of_nil in Hin.
    - rewrite Hr. eexists. split_and!; [done|apply NoDup_singleton|].
      simpl. intros k v [= _ ->]%list_elem_of_singleton. done.
    - rewrite register_loop by done. eexists. split_and!; [done| |].
      + apply outputs_after_NoDup. constructor.
      + intros k v Hin. apply outputs_after_values in Hin as [Hin|?]; [|done].
        by apply elem_of_nil in Hin.
    - rewrite Hr. eexists. split_and!; [done|apply NoDup_singleton|].
      simpl. intros k v [= _ ->]%list_elem_of_singleton. done. }
  rewrite Hret in Hnew. injection Hnew as <-. simpl. split_and!.
  - apply inputs_after_NoDup. constructor.
  - done.
  - intros k v [Hin|Hin]; [|by eapply Hval].
    apply inputs_after_values in Hin as [Hin|?]; [|done].
    by apply elem_of_nil in Hin.
  - intros k [Hin|[? _]]%inputs_after_keys; [|done]. by apply elem_of_nil in Hin.
  - apply config_after_is_config_class. by left.
Qed.

End ClassConstructionMore.

(** ** Further properties of instance construction *)

Section ConstructionMore.
Context `{Collaborators}.
Implicit Types (f : frame) (cls : step_class) (s : step) (v c : pyval).

Ltac run := unfold bind, lift, gets, modify, raise, ret; simpl.

(** X9: for a class without configuration type, [__init__] does not look
    at the keyword arguments: it leaves the parameter spec empty and its
    outcome is that of [generate_component]. *)
Theorem no_config_type_ignores_keywords cls s (kwargs : odict pyval) :
  CONFIG cls = None →
  BaseStep_init [] kwargs (Frame cls s) =
    match generate_component cls (Step None None [] (_BaseStep__component_class s)) with
    | Ok make => (Ok tt, Frame cls (Step None None [] (Some make)))
    | Raise e => (Raise e, Frame cls (Step None None [] (_BaseStep__component_class s)))
    end.
Proof.
  intros Hcfg. unfold BaseStep_init. run. rewrite Hcfg. simpl.
  by destruct (generate_component _ _).
Qed.

Lemma last_config_cons v (vs : list pyval) :
  last_config (v :: vs) =
    match last_config vs with
    | Some c => Some c
    | None => if isinstance_BaseStepConfig v then Some v else None
    end.
Proof.
  unfold last_config. simpl.
  destruct (isinstance_BaseStepConfig v); [|by destruct (last _)].
  apply last_cons.
Qed.

(** The loop over keyword values once [config] is bound: every turn
    serializes the configuration met last. *)
Lemma find_config_serializing (vs : list pyval) c0 (p0 : odict string) f :
  serialized c0 = Ok p0 → p0 ≠ [] →
  Forall (λ v, isinstance_BaseStepConfig v = true → serializes v) vs →
  ∃ p, serialized (default c0 (last_config vs)) = Ok p ∧
       find_config vs (Some c0) (set_PARAM_SPEC p0 f) = (Ok tt, set_PARAM_SPEC p f).
Proof.
  intros Hp0 Hne0 Hvs. revert c0 p0 Hp0 Hne0.
  induction Hvs as [|v vs Hv _ IH]; intros c0 p0 Hp0 Hne0.
  - by exists p0.
  - rewrite find_config_cons, last_config_cons. simpl.
    set (c1 := if isinstance_BaseStepConfig v then v else c0).
    assert (serializes c1) as (p1 & Hp1 & Hne1).
    { unfold c1. destruct (isinstance_BaseStepConfig v); [by apply Hv|by exists p0]. }
    assert ((if isinstance_BaseStepConfig v then Some v else Some c0) = Some c1) as ->.
    { unfold c1. by destruct (isinstance_BaseStepConfig v). }
    assert (default c0 match last_config vs with
                       | Some c => Some c
                       | None => if isinstance_BaseStepConfig v then Some v else None
                       end = default c1 (last_config vs)) as ->.
    { unfold c1. destruct (last_config vs); [done|].
      by destruct (isinstance_BaseStepConfig v). }
    rewrite Hp1. destruct p1 as [|kv p1]; [done|].
    change (set_PARAM_SPEC (kv :: p1) (set_PARAM_SPEC p0 f))
      with (set_PARAM_SPEC (kv :: p1) f).
    destruct (IH c1 (kv :: p1) Hp1 Hne1) as (p & Hp & Hrun).
    exists p. split; [done|]. by rewrite <-Hrun.
Qed.

#[local] Opaque find_config.

(** X10: when the class has a configuration type, the first keyword value is
    a configuration and every configuration among the keyword values
    serializes to a non-empty mapping, [__init__] succeeds and the parameter
    spec is the serialization of the last configuration among them,
    whatever its class. *)
Theorem last_configuration_wins cls s name v0 (rest : odict pyval)
    config_type c (p : odict string) make :
  CONFIG cls = Some (OClass config_type) →
  isinstance_BaseStepConfig v0 = true →
  Forall (λ v, isinstance_BaseStepConfig v = true → serializes v) (v0 :: rest.*2) →
  last_config (v0 :: rest.*2) = Some c →
  serialized c = Ok p →
  generate_component cls (Step None None p (_BaseStep__component_class s)) = Ok make →
  BaseStep_init [] ((name, v0) :: rest) (Frame cls s) =
    (Ok tt, Frame cls (Step None None p (Some make))).
Proof.
  intros Hcfg Hv0 Hall Hlast Hp Hgen.
  unfold BaseStep_init.
  change (((name, v0) :: rest).*2) with (v0 :: rest.*2).
  remember (rest.*2) as vs eqn:Hvs. clear Hvs.
  destruct (Forall_cons_1 _ _ _ Hall) as [Hs0 Hrest].
  destruct (Hs0 Hv0) as (p1 & Hp1 & Hne).
  rewrite last_config_cons, Hv0 in Hlast.
  run. rewrite Hcfg.
  rewrite find_config_cons. simpl. rewrite Hv0, Hp1.
  destruct p1 as [|kv p1]; [done|].
  set (f0 := Frame cls (Step None None [] (_BaseStep__component_class s))).
  destruct (find_config_serializing vs v0 (kv :: p1) f0 Hp1 Hne Hrest)
    as (p' & Hp' & Hrun).
  assert (default v0 (last_config vs) = c) as Hc.
  { destruct (last_config vs); by injection Hlast. }
  rewrite Hc, Hp in Hp'. injection Hp' as <-.
  unfold f0, set_PARAM_SPEC in Hrun. simpl in Hrun.
  unfold set_PARAM_SPEC. simpl. rewrite Hrun. simpl. by rewrite Hgen.
Qed.

(** X11: a configuration without fields, supplied as the first keyword
    value, makes [__init__] fail with the [AssertionError] that says the
    configuration could not be found. *)
Theorem empty_configuration_is_not_found cls s name c (rest : odict pyval) config_type :
  CONFIG cls = Some (OClass config_type) →
  isinstance_BaseStepConfig c = true →
  serialized c = Ok [] →
  BaseStep_init [] ((name, c) :: rest) (Frame cls s) =
    (Raise (AssertionError msg_config_not_found),
     Frame cls (Step None None [] (_BaseStep__component_class s))).
Proof.
  intros Hcfg Hc Hser. unfold BaseStep_init. run. rewrite Hcfg.
  rewrite find_config_cons. simpl. by rewrite Hc, Hser.
Qed.

(** X12: the configuration must be the first keyword value: when the first
    keyword value is not a configuration, [__init__] fails with an
    [UnboundLocalError] for [config], even if a later keyword holds the
    configuration. *)
Theorem configuration_must_come_first cls s name v (rest : odict pyval) config_type :
  CONFIG cls = Some (OClass config_type) →
  isinstance_BaseStepConfig v = false →
  BaseStep_init [] ((name, v) :: rest) (Frame cls s) =
    (Raise (UnboundLocalError msg_config_unbound),
     Frame cls (Step None None [] (_BaseStep__component_class s))).
Proof.
  intros Hcfg Hv. unfold BaseStep_init. run. rewrite Hcfg.
  rewrite find_config_cons. simpl. by rewrite Hv.
Qed.

(** X13: when serializing the first keyword's configuration raises, a
    [RuntimeError] (or a subclass of it) is turned into the
    [StepInterfaceError] about serialization and any other exception leaves
    [__init__] as it is; the parameter spec stays empty. *)
Theorem only_RuntimeError_is_converted cls s name c (rest : odict pyval) config_type e :
  CONFIG cls = Some (OClass config_type) →
  isinstance_BaseStepConfig c = true →
  serialized c = Raise e →
  BaseStep_init [] ((name, c) :: rest) (Frame cls s) =
    (Raise (if is_RuntimeError e
            then StepInterfaceError msg_cannot_serialize else e),
     Frame cls (Step None None [] (_BaseStep__component_class s))).
Proof.
  intros Hcfg Hc Hser. unfold BaseStep_init. run. rewrite Hcfg.
  rewrite find_config_cons. simpl. by rewrite Hc, Hser.
Qed.

(** Whatever the loop does, it changes the parameter spec only. *)
Lemma find_config_only_param_spec (vs : list pyval) (config : option pyval) f :
  ∃ p, (find_config vs config f).2 = set_PARAM_SPEC p f.
Proof.
  revert config f. induction vs as [|v vs IH]; intros config f.
  - exists (PARAM_SPEC (the_self f)). by destruct f as [cls []].
  - rewrite find_config_cons. simpl.
    destruct (if isinstance_BaseStepConfig v then Some v else config) as [c|].
    2:{ exists (PARAM_SPEC (the_self f)). by destruct f as [cls []]. }
    destruct (serialized c) as [[|kv p]|e]; simpl.
    + by exists [].
    + destruct (IH (Some c) (set_PARAM_SPEC (kv :: p) f)) as [p' ->]. by exists p'.
    + exists (PARAM_SPEC (the_self f)). by destruct f as [cls []].
Qed.

(** X14: however [__init__] ends, the parameter spec is empty or the
    complete serialization of one of the keyword values; it never holds a
    part of a serialization. *)
Theorem param_spec_is_empty_or_complete (args : list pyval) (kwargs : odict pyval) f :
  let f' := (BaseStep_init args kwargs f).2 in
  PARAM_SPEC (the_self f') = [] ∨
  ∃ c, c ∈ kwargs.*2 ∧ serialized c = Ok (PARAM_SPEC (the_self f')).
Proof.
  unfold BaseStep_init. run. destruct args; simpl; [|by left].
  set (f0 := set_PARAM_SPEC [] (set_component None (set_materializers None f))).
  assert (∀ f1 : frame,
            (PARAM_SPEC (the_self f1) = [] ∨
             ∃ c, c ∈ kwargs.*2 ∧ serialized c = Ok (PARAM_SPEC (the_self f1))) →
            let r := match generate_component (the_class f1) (the_self f1) with
                     | Ok a => (Ok tt, set_component_class (Some a) f1)
                     | Raise e => (Raise e, f1)
                     end in
            PARAM_SPEC (the_self r.2) = [] ∨
            ∃ c, c ∈ kwargs.*2 ∧ serialized c = Ok (PARAM_SPEC (the_self r.2)))
    as Htail.
  { intros f1 Hf1. by destruct (generate_component _ _). }
  assert (let f1 := (find_config kwargs.*2 None f0).2 in
          PARAM_SPEC (the_self f1) = [] ∨
          ∃ c, c ∈ kwargs.*2 ∧ serialized c = Ok (PARAM_SPEC (the_self f1)))
    as Hloop.
  { intros f1.
    destruct (param_spec_never_partial kwargs.*2 None f0)
      as [Heq|(c & [Hc|?] & Hser)]; [left; exact Heq| |done].
    right. eauto. }
  destruct (CONFIG (the_class f)) as [[]|];
    try (apply (Htail f0); by left);
    destruct (find_config kwargs.*2 None f0) as [[[]|e] f1]; simpl in *;
    try done; by apply Htail.
Qed.

(** X16: [__init__] clears the materializers and the component: whatever its
    outcome, and whatever the instance held before, the instance is left
    without materializers and its [component] property is [None]. *)
Theorem init_clears_materializers_and_component (args : list pyval) (kwargs : odict pyval) f :
  let f' := (BaseStep_init args kwargs f).2 in
  materializers (the_self f') = None ∧
  BaseStep_component f' = (Ok None, f').
Proof.
  unfold BaseStep_init, BaseStep_component. run. destruct args; simpl; [|done].
  set (f0 := set_PARAM_SPEC [] (set_component None (set_materializers None f))).
  assert (∀ f1 : frame,
            (materializers (the_self f1) = None ∧
             _BaseStep__component (the_self f1) = None) →
            let r := match generate_component (the_class f1) (the_self f1) with
                     | Ok a => (Ok tt, set_component_class (Some a) f1)
                     | Raise e => (Raise e, f1)
                     end in
            materializers (the_self r.2) = None ∧
            (Ok (_BaseStep__component (the_self r.2)), r.2) = (Ok None, r.2))
    as Htail.
  { intros f1 [Hm Hc]. destruct (generate_component _ _); simpl; by rewrite Hm, Hc. }
  destruct (find_config_only_param_spec kwargs.*2 None f0) as [p Hp].
  destruct (CONFIG (the_class f)) as [[]|];
    try (by apply (Htail f0));
    destruct (find_config kwargs.*2 None f0) as [[[]|e] f1]; simpl in *;
    subst f1; try (by apply Htail); done.
Qed.

#[local] Transparent find_config.

Lemma dumps_items_all (d : odict pyval) (p acc : odict string) :
  NoDup (keys acc ++ keys d) →
  Forall2 (λ kv ks, ks.1 = kv.1 ∧ json_dumps kv.2 = Ok ks.2) d p →
  dumps_items d acc = Ok (acc ++ p).
Proof.
  intros Hnd Hall. revert acc Hnd.
  induction Hall as [|[k v] [k' dumped] d p [Hk Hv] _ IH]; intros acc Hnd; simpl in *.
  - by rewrite app_nil_r.
  - subst k'. rewrite Hv. rewrite dict_update_fresh.
    2:{ apply NoDup_app in Hnd as (_ & Hdisj & _). intros Hin.
        apply (Hdisj _ Hin). by left. }
    rewrite IH, <-app_assoc; [done|].
    unfold keys in *. rewrite fmap_app, <-app_assoc. done.
Qed.

Lemma dumps_items_raise (pre post : odict pyval) k v e (acc : odict string) :
  Forall (λ kv, ∃ dumped, json_dumps kv.2 = Ok dumped) pre →
  json_dumps v = Raise e →
  dumps_items (pre ++ (k, v) :: post) acc = Raise e.
Proof.
  intros Hpre Hv. revert acc.
  induction Hpre as [|[k0 v0] pre [s0 Hs0] _ IH]; intros acc; simpl in *.
  - by rewrite Hv.
  - rewrite Hs0. apply IH.
Qed.

(** X15: the parameter spec of a configuration lists its fields in their
    order, each under its name with its [json.dumps] string, when every
    field can be dumped; otherwise the serialization raises what
    [json.dumps] raises for the first field that cannot. *)
Theorem serialized_lists_the_dumped_fields c (d : odict pyval) :
  model_dict c = Ok d →
  (∀ p : odict string,
     NoDup (keys d) →
     Forall2 (λ kv ks, ks.1 = kv.1 ∧ json_dumps kv.2 = Ok ks.2) d p →
     serialized c = Ok p) ∧
  (∀ pre k v post e,
     d = pre ++ (k, v) :: post →
     Forall (λ kv, ∃ dumped, json_dumps kv.2 = Ok dumped) pre →
     json_dumps v = Raise e →
     serialized c = Raise e).
Proof.
  intros Hd. unfold serialized. rewrite Hd. split.
  - intros p Hnd Hall. by rewrite (dumps_items_all d p []).
  - intros pre k v post e -> Hpre Hv. by apply dumps_items_raise.
Qed.

End ConstructionMore.

(** ** Further properties of invocation *)

Section InvocationMore.
Implicit Types (f : frame) (artifacts : odict channel) (k : string).

Ltac run := unfold bind, lift, gets, modify, raise, ret; simpl.

Lemma frame_eta f :
  set_component (_BaseStep__component (the_self f))
                (set_materializers (materializers (the_self f)) f) = f.
Proof. by destruct f as [cls []]. Qed.

Lemma find_all_false {A} (p : A → bool) (l : list A) :
  (∀ x, x ∈ l → p x = false) ↔ List.find p l = None.
Proof.
  induction l as [|x l IH]; simpl.
  - split; [done|]. intros _ y Hy. by apply elem_of_nil in Hy.
  - destruct (p x) eqn:Hx.
    + split; [|done]. intros Hall. rewrite Hall in Hx; [done|by left].
    + rewrite <-IH. split.
      * intros Hall y Hy. apply Hall. by right.
      * intros Hall y [->|Hy]%elem_of_cons; [done|by apply Hall].
Qed.

Lemma find_first_true {A} (p : A → bool) (pre post : list A) x :
  (∀ y, y ∈ pre → p y = false) → p x = true →
  List.find p (pre ++ x :: post) = Some x.
Proof.
  intros Hpre Hx. induction pre as [|y pre IH]; simpl.
  - by rewrite Hx.
  - rewrite Hpre by (by left). apply IH. intros z Hz. apply Hpre. by right.
Qed.

(** A loop of checks raises for the first element that fails its check and
    leaves the state alone. *)
Lemma for_each_check {St A} (b : A → bool) (err : A → exn) (l : list A) (s : St) :
  for_each l (λ x, if b x then ret tt else raise (err x)) s =
    (match List.find (λ x, negb (b x)) l with
     | Some x => Raise (err x)
     | None => Ok tt
     end, s).
Proof.
  induction l as [|x l IH]; simpl; [done|].
  unfold bind. destruct (b x); simpl; [apply IH|done].
Qed.

Lemma resolve_returns_exposed_eq (ks : list string) (acc : list channel) f component :
  _BaseStep__component (the_self f) = Some component →
  resolve_returns ks acc f =
    (match exposed component ks with
     | Ok chs => Ok (acc ++ chs)
     | Raise e => Raise e
     end, f).
Proof.
  intros Hc. revert acc. induction ks as [|k ks IH]; intros acc; simpl.
  - by rewrite app_nil_r.
  - unfold bind, output_channel. run. rewrite Hc.
    destruct (outputs component !! k) as [ch|]; run; [|done].
    rewrite IH. destruct (exposed component ks); [|done].
    by rewrite <-app_assoc.
Qed.

Lemma exposed_Ok component (ks : list string) (chs : list channel) :
  exposed component ks = Ok chs ↔
  Forall2 (λ k ch, outputs component !! k = Some ch) ks chs.
Proof.
  revert chs. induction ks as [|k ks IH]; intros chs; simpl.
  - split; [intros [= <-]; constructor|]. by intros ->%Forall2_nil_inv_l.
  - destruct (outputs component !! k) as [ch|] eqn:Hk.
    + destruct (exposed component ks) as [chs'|e] eqn:Hks.
      * split.
        -- intros [= <-]. constructor; [done|]. by apply IH.
        -- intros (ch' & chs'' & Hch & Hall & ->)%Forall2_cons_inv_l.
           apply IH in Hall. congruence.
      * split; [done|].
        intros (ch' & chs'' & Hch & Hall & ->)%Forall2_cons_inv_l.
        by apply IH in Hall.
    + split; [done|].
      intros (ch' & chs'' & Hch & Hall & ->)%Forall2_cons_inv_l. congruence.
Qed.

Lemma exposed_raise component (pre post : list string) k :
  (∀ k', k' ∈ pre → is_Some (outputs component !! k')) →
  outputs component !! k = None →
  exposed component (pre ++ k :: post) = Raise (AttributeError (msg_no_attribute k)).
Proof.
  intros Hpre Hk. induction pre as [|k0 pre IH]; simpl.
  - by rewrite Hk.
  - destruct (Hpre k0) as [ch ->]; [by left|].
    rewrite IH; [done|]. intros k' Hk'. apply Hpre. by right.
Qed.

(** [__call__], step by step, as a function of the attributes it reads. *)
Lemma call_unfold artifacts cls mats comp0 (params : odict string)
    (cc : option component_class) :
  let f := Frame cls (Step mats comp0 params cc) in
  BaseStep_call artifacts f =
    match List.find (λ k, negb (dict_mem k (INPUT_SPEC cls))) (keys artifacts) with
    | Some k => (Raise (ValueError (msg_undefined k (keys (INPUT_SPEC cls)))), f)
    | None =>
    match List.find (λ k, negb (dict_mem k artifacts)) (keys (INPUT_SPEC cls)) with
    | Some k => (Raise (ValueError (msg_unconnected k)), f)
    | None =>
    match cc with
    | None => (Raise (AttributeError (msg_no_attribute "_BaseStep__component_class")), f)
    | Some make =>
    match merge_kwargs (prod_map id KArtifact <$> artifacts)
                       (prod_map id KParam <$> params) with
    | Raise e => (Raise e, f)
    | Ok kw =>
    match make kw with
    | Raise e => (Raise e, f)
    | Ok component =>
        (match exposed component (keys (OUTPUT_SPEC cls)) with
         | Ok chs => Ok (as_returned chs)
         | Raise e => Raise e
         end, Frame cls (Step mats (Some component) params cc))
    end end end end end.
Proof.
  intros f. unfold BaseStep_call. unfold bind at 1. unfold gets at 1. simpl.
  unfold bind at 1.
  rewrite (for_each_check (λ a, dict_mem a (INPUT_SPEC cls))
             (λ a, ValueError (msg_undefined a (keys (INPUT_SPEC cls))))).
  destruct (List.find _ (keys artifacts)); [done|].
  unfold bind at 1.
  rewrite (for_each_check (λ a, dict_mem a artifacts)
             (λ a, ValueError (msg_unconnected a))).
  destruct (List.find _ (keys (INPUT_SPEC cls))); [done|].
  run. destruct cc as [make|]; simpl; [|done].
  destruct (merge_kwargs _ _) as [kw|e]; simpl; [|done].
  destruct (make kw) as [component|e]; simpl; [|done].
  rewrite (resolve_returns_exposed_eq _ _ _ component) by done.
  destruct (exposed component (keys (OUTPUT_SPEC cls))) as [chs|e]; simpl; [|done].
  by destruct chs as [|? [|? ?]].
Qed.

Lemma checks_pass artifacts cls :
  (∀ k, k ∈ keys artifacts ↔ k ∈ keys (INPUT_SPEC cls)) ↔
  List.find (λ k, negb (dict_mem k (INPUT_SPEC cls))) (keys artifacts) = None ∧
  List.find (λ k, negb (dict_mem k artifacts)) (keys (INPUT_SPEC cls)) = None.
Proof.
  rewrite <-!find_all_false. split.
  - intros Hkeys. split; intros k Hk; apply negb_false_iff, dict_mem_true;
      by apply Hkeys.
  - intros [H1 H2] k. split; intros Hk.
    + by apply dict_mem_true, negb_false_iff, H1.
    + by apply dict_mem_true, negb_false_iff, H2.
Qed.

Lemma merge_kwargs_Ok_inv (a b kw : odict kwarg) :
  merge_kwargs a b = Ok kw → ∀ k, k ∈ keys b → k ∉ keys a.
Proof.
  unfold merge_kwargs.
  destruct (List.find _ b) as [[k0 v0]|] eqn:Hfind; [done|]. intros _ k Hk.
  apply list_elem_of_fmap in Hk as ([k' v'] & -> & Hin).
  apply dict_mem_false.
  by apply (proj2 (find_all_false (λ kv : string * kwarg, dict_mem kv.1 a) b) Hfind (k', v')).
Qed.

(** X17: when the keywords are exactly the declared inputs but a key of the
    parameter spec is also a keyword, the call fails with the [TypeError]
    for the first such key, in the order of the parameter spec, and leaves
    the instance as it was. *)
Theorem clashing_parameter_is_a_TypeError artifacts f make
    (pre post : odict string) k v :
  (∀ k, k ∈ keys artifacts ↔ k ∈ keys (INPUT_SPEC (the_class f))) →
  _BaseStep__component_class (the_self f) = Some make →
  PARAM_SPEC (the_self f) = pre ++ (k, v) :: post →
  (∀ k', k' ∈ keys pre → k' ∉ keys artifacts) →
  k ∈ keys artifacts →
  BaseStep_call artifacts f = (Raise (TypeError (msg_multiple_values k)), f).
Proof.
  destruct f as [cls [mats comp0 params cc]]. simpl.
  intros [H1 H2]%checks_pass -> -> Hpre Hk.
  rewrite call_unfold, H1, H2. unfold merge_kwargs. rewrite fmap_app. simpl.
  rewrite (find_first_true _ _ _ (k, KParam v)); [done| |].
  - intros [k' v'] ([k'' s''] & [= -> ->] & Hin)%list_elem_of_fmap. simpl.
    apply dict_mem_false. rewrite keys_tagged. apply Hpre.
    apply list_elem_of_fmap. by exists (k'', s'').
  - simpl. apply dict_mem_true. by rewrite keys_tagged.
Qed.

(** X18: when the bindings are accepted and the component class raises, the
    call raises the same exception and the stored component is not
    replaced. *)
Theorem component_class_exception_propagates artifacts f make e :
  (∀ k, k ∈ keys artifacts ↔ k ∈ keys (INPUT_SPEC (the_class f))) →
  (∀ k, k ∈ keys (PARAM_SPEC (the_self f)) → k ∉ keys artifacts) →
  _BaseStep__component_class (the_self f) = Some make →
  make ((prod_map id KArtifact <$> artifacts)
        ++ (prod_map id KParam <$> PARAM_SPEC (the_self f))) = Raise e →
  BaseStep_call artifacts f = (Raise e, f).
Proof.
  destruct f as [cls [mats comp0 params cc]]. simpl.
  intros [H1 H2]%checks_pass Hdisj -> Hmake.
  rewrite call_unfold, H1, H2, merge_kwargs_disjoint.
  2:{ intros k. rewrite !keys_tagged. apply Hdisj. }
  by rewrite Hmake.
Qed.

(** X19: when the component that the component class returns lacks a
    declared output, the call fails with the [AttributeError] for the first
    such output, in the order of the output spec, and the component has
    nonetheless replaced the stored one. *)
Theorem missing_output_is_an_AttributeError artifacts f make component
    (pre post : list string) k :
  (∀ k, k ∈ keys artifacts ↔ k ∈ keys (INPUT_SPEC (the_class f))) →
  (∀ k, k ∈ keys (PARAM_SPEC (the_self f)) → k ∉ keys artifacts) →
  _BaseStep__component_class (the_self f) = Some make →
  make ((prod_map id KArtifact <$> artifacts)
        ++ (prod_map id KParam <$> PARAM_SPEC (the_self f))) = Ok component →
  keys (OUTPUT_SPEC (the_class f)) = pre ++ k :: post →
  (∀ k', k' ∈ pre → is_Some (outputs component !! k')) →
  outputs component !! k = None →
  BaseStep_call artifacts f =
    (Raise (AttributeError (msg_no_attribute k)), set_component (Some component) f).
Proof.
  destruct f as [cls [mats comp0 params cc]]. simpl.
  intros [H1 H2]%checks_pass Hdisj -> Hmake Hout Hpre Hk.
  rewrite call_unfold, H1, H2, merge_kwargs_disjoint.
  2:{ intros k'. rewrite !keys_tagged. apply Hdisj. }
  by rewrite Hmake, Hout, exposed_raise.
Qed.

(** X20: what a call returns or raises does not depend on the materializers
    injected before it, and the injected materializers are still there after
    the call. *)
Theorem call_ignores_injected_materializers (m : odict pyclass) artifacts f :
  let f1 := (BaseStep_with_materializers m f).2 in
  (BaseStep_call artifacts f1).1 = (BaseStep_call artifacts f).1 ∧
  materializers (the_self (BaseStep_call artifacts f1).2) = Some m.
Proof.
  destruct f as [cls [mats comp0 params cc]]. simpl.
  unfold set_materializers. simpl. rewrite !call_unfold.
  repeat match goal with
         | |- context [match ?x with _ => _ end] =>
             lazymatch x with
             | context [match _ with _ => _ end] => fail
             | _ => destruct x; simpl
             end
         end; done.
Qed.

(** X22: after a call that succeeded, the [component] property is the
    component whose channels the call returned, one for every name of the
    output spec in its order. *)
Theorem component_after_successful_call artifacts f r f' :
  BaseStep_call artifacts f = (Ok r, f') →
  ∃ component chs,
    BaseStep_component f' = (Ok (Some component), f') ∧
    Forall2 (λ k ch, outputs component !! k = Some ch)
            (keys (OUTPUT_SPEC (the_class f'))) chs ∧
    r = as_returned chs.
Proof.
  destruct f as [cls [mats comp0 params cc]]. rewrite call_unfold. simpl.
  destruct (List.find _ (keys artifacts)); [done|].
  destruct (List.find _ (keys (INPUT_SPEC cls))); [done|].
  destruct cc as [make|]; [|done].
  destruct (merge_kwargs _ _) as [kw|e]; [|done].
  destruct (make kw) as [component|e]; [|done].
  destruct (exposed component (keys (OUTPUT_SPEC cls))) as [chs|e] eqn:Hex; [|done].
  intros [= <- <-]. exists component, chs. split_and!; [done| |done].
  by apply exposed_Ok.
Qed.

(** X23: a call succeeds only on exact bindings: if it returns, the keywords
    were exactly the names of the input spec and none of them was a key of
    the parameter spec. *)
Theorem successful_call_had_exact_bindings artifacts f r f' :
  BaseStep_call artifacts f = (Ok r, f') →
  (∀ k, k ∈ keys artifacts ↔ k ∈ keys (INPUT_SPEC (the_class f))) ∧
  (∀ k, k ∈ keys (PARAM_SPEC (the_self f)) → k ∉ keys artifacts).
Proof.
  destruct f as [cls [mats comp0 params cc]]. rewrite call_unfold. simpl.
  destruct (List.find _ (keys artifacts)) eqn:H1; [done|].
  destruct (List.find _ (keys (INPUT_SPEC cls))) eqn:H2; [done|].
  destruct cc as [make|]; [|done].
  destruct (merge_kwargs _ _) as [kw|e] eqn:Hkw; [|done]. intros _. split.
  - by apply checks_pass.
  - intros k Hk. apply merge_kwargs_Ok_inv with (k := k) in Hkw.
    + by rewrite keys_tagged in Hkw.
    + by rewrite keys_tagged.
Qed.

End InvocationMore.

(** ** The further properties on the sample steps *)

Lemma sink_process_params_ok : params_ok (H:=reference) sink_process.
Proof. split; [reflexivity|vm_compute; lia]. Defined.

Lemma data_to_socket_process_params_ok :
  params_ok (H:=reference) data_to_socket_process.
Proof. split; [reflexivity|vm_compute; lia]. Defined.

(** X1, witness: the trainer's signature is valid, so it is constructed;
    it is constructed, so it is valid. *)
Lemma construction_succeeds_iff_signature_valid_witness :
  (∃ cls, BaseStepMeta_new (H:=reference) trainer_process = Ok cls) ∧
  (params_ok (H:=reference) trainer_process ∧
   return_ok (H:=reference) trainer_process = true).
Proof.
  split.
  - apply (proj2 (construction_succeeds_iff_signature_valid trainer_process)).
    split; [exact trainer_process_params_ok|reflexivity].
  - apply (proj1 (construction_succeeds_iff_signature_valid trainer_process)).
    by exists trainer_class.
Defined.

(** X3, witness: the trainer's input spec. *)
Lemma input_spec_in_signature_order_witness :
  ∃ cls, BaseStepMeta_new (H:=reference) trainer_process = Ok cls ∧
         INPUT_SPEC cls = (λ a, (a, BaseArtifact)) <$> artifact_params trainer_process.
Proof.
  apply (input_spec_in_signature_order trainer_process).
  - exact trainer_process_params_ok.
  - reflexivity.
  - apply (bool_decide_unpack _). reflexivity.
Defined.

(** X4, witness: the trainer's configuration type. *)
Lemma config_is_the_configuration_annotation_witness :
  ∃ cls, BaseStepMeta_new (H:=reference) trainer_process = Ok cls ∧
         CONFIG cls = declared_config trainer_process.
Proof.
  apply (config_is_the_configuration_annotation trainer_process).
  - exact trainer_process_params_ok.
  - reflexivity.
Defined.

(** X5, witness: a step that returns nothing. *)
Lemma no_return_annotation_no_outputs_witness :
  ∃ cls, BaseStepMeta_new (H:=reference) sink_process = Ok cls ∧ OUTPUT_SPEC cls = [].
Proof.
  apply (no_return_annotation_no_outputs sink_process).
  - exact sink_process_params_ok.
  - reflexivity.
Defined.

(** X6, witness: a step that returns a socket. *)
Lemma unregistered_return_is_reported_witness :
  ∃ msg,
    BaseStepMeta_new (H:=reference) data_to_socket_process =
      Raise (StepInterfaceError msg) ∧
    msg = msg_return_unregistered (OClass py_socket) ∧
    occurs (py_str (OClass py_socket)) msg ∧ occurs (cls_name py_socket) msg.
Proof.
  apply (unregistered_return_is_reported (H:=reference) data_to_socket_process
           py_socket).
  - exact data_to_socket_process_params_ok.
  - reflexivity.
  - reflexivity.
Defined.

(** X7, witness: a parameter without annotation. *)
Lemma non_class_annotation_is_a_TypeError_witness :
  BaseStepMeta_new (H:=reference) unannotated_process =
    Raise (TypeError "issubclass() arg 1 must be a class").
Proof.
  apply (non_class_annotation_is_a_TypeError (H:=reference) unannotated_process
           [] "data" []).
  - reflexivity.
  - reflexivity.
  - vm_compute. lia.
  - intros c. vm_compute. discriminate.
Defined.

(** X8, witness: the trainer class. *)
Lemma constructed_class_is_well_formed_witness :
  NoDup (keys (INPUT_SPEC trainer_class)) ∧ NoDup (keys (OUTPUT_SPEC trainer_class)) ∧
  (∀ k v, (k, v) ∈ INPUT_SPEC trainer_class ∨ (k, v) ∈ OUTPUT_SPEC trainer_class →
          v = BaseArtifact) ∧
  (∀ k, k ∈ keys (INPUT_SPEC trainer_class) → k ∈ process_args trainer_process) ∧
  (CONFIG trainer_class = None ∨
   ∃ c, CONFIG trainer_class = Some (OClass c) ∧
        subclass_of c BaseStepConfig_name = true).
Proof.
  apply (constructed_class_is_well_formed (H:=reference) trainer_process).
  reflexivity.
Defined.

(** X9, witness: a step without configuration, given one all the same. *)
Lemma no_config_type_ignores_keywords_witness :
  PARAM_SPEC (the_self (BaseStep_init (H:=reference) [] [("config", plain_config)]
                                      (Frame plain_class unbuilt)).2) = [].
Proof.
  rewrite (no_config_type_ignores_keywords (H:=reference) plain_class unbuilt
             [("config", plain_config)]); reflexivity.
Defined.

(** X10, witness: two configurations and an integer between them. *)
Lemma last_configuration_wins_witness :
  ∃ make,
    BaseStep_init (H:=reference) []
                  [("first", clashing_config); ("n", VInt 1); ("last", plain_config)]
                  trainer_unbuilt =
      (Ok tt, Frame trainer_class (Step None None [("epochs", "3")] (Some make))).
Proof.
  eexists.
  apply (last_configuration_wins (H:=reference) trainer_class unbuilt
           "first" clashing_config [("n", VInt 1); ("last", plain_config)]
           TrainerConfig plain_config [("epochs", "3")]).
  - reflexivity.
  - reflexivity.
  - apply Forall_cons. split.
    { intros _. eexists. split; [reflexivity|discriminate]. }
    apply Forall_cons. split; [discriminate|].
    apply Forall_cons. split; [|by apply Forall_nil].
    intros _. eexists. split; [reflexivity|discriminate].
  - reflexivity.
  - reflexivity.
  - reflexivity.
Defined.

(** X11, witness: [Trainer(config=TrainerConfig())]. *)
Lemma empty_configuration_is_not_found_witness :
  BaseStep_init (H:=reference) [] [("config", empty_config)] trainer_unbuilt =
    (Raise (AssertionError msg_config_not_found), trainer_unbuilt).
Proof.
  apply (empty_configuration_is_not_found (H:=reference) trainer_class unbuilt
           "config" empty_config [] TrainerConfig); reflexivity.
Defined.

(** X12, witness: [Trainer(n=1, config=TrainerConfig(epochs=3))]. *)
Lemma configuration_must_come_first_witness :
  BaseStep_init (H:=reference) [] [("n", VInt 1); ("config", plain_config)]
                trainer_unbuilt =
    (Raise (UnboundLocalError msg_config_unbound), trainer_unbuilt).
Proof.
  apply (configuration_must_come_first (H:=reference) trainer_class unbuilt
           "n" (VInt 1) [("config", plain_config)] TrainerConfig); reflexivity.
Defined.

(** X13, witness: the [TypeError] of a [datetime] field is not converted. *)
Lemma only_RuntimeError_is_converted_witness :
  BaseStep_init (H:=reference) [] [("config", dated_config)] trainer_unbuilt =
    (Raise (TypeError "Object of type datetime is not JSON serializable"),
     trainer_unbuilt).
Proof.
  apply (only_RuntimeError_is_converted (H:=reference) trainer_class unbuilt
           "config" dated_config [] TrainerConfig
           (TypeError "Object of type datetime is not JSON serializable"));
    reflexivity.
Defined.

(** X15, witness: the fields of [TrainerConfig(epochs=3)], and the
    [datetime] field after the dumped one. *)
Lemma serialized_lists_the_dumped_fields_witness :
  serialized (H:=reference) plain_config = Ok [("epochs", "3")] ∧
  serialized (H:=reference) dated_config =
    Raise (TypeError "Object of type datetime is not JSON serializable").
Proof.
  split.
  - apply (proj1 (serialized_lists_the_dumped_fields (H:=reference) plain_config
                    [("epochs", VInt 3)] eq_refl)).
    + apply (bool_decide_unpack _). reflexivity.
    + repeat constructor.
  - apply (proj2 (serialized_lists_the_dumped_fields (H:=reference) dated_config
                    [("epochs", VInt 3); ("started", VInst py_datetime [])] eq_refl)
                 [("epochs", VInt 3)] "started" (VInst py_datetime []) []).
    + reflexivity.
    + repeat constructor. by exists "3".
    + reflexivity.
Defined.

(** X17, witness: the trainer whose configuration has a field [data]. *)
Lemma clashing_parameter_is_a_TypeError_witness :
  BaseStep_call [("data", Channel 7)] clashing_trainer =
    (Raise (TypeError (msg_multiple_values "data")), clashing_trainer).
Proof.
  eapply (clashing_parameter_is_a_TypeError [("data", Channel 7)] clashing_trainer
            _ [] [] "data" "3").
  - intros k. vm_compute. tauto.
  - reflexivity.
  - reflexivity.
  - intros k Hk. by apply elem_of_nil in Hk.
  - vm_compute. left.
Defined.

(** X18, witness: the trainer whose component class raises. *)
Lemma component_class_exception_propagates_witness :
  BaseStep_call [("data", Channel 7)] failing_trainer =
    (Raise (RuntimeError "component"), failing_trainer).
Proof.
  eapply (component_class_exception_propagates [("data", Channel 7)] failing_trainer).
  - intros k. vm_compute. tauto.
  - intros k Hk Hk'. vm_compute in Hk, Hk'.
    apply list_elem_of_singleton in Hk as ->.
    by apply list_elem_of_singleton in Hk'.
  - reflexivity.
  - reflexivity.
Defined.

(** X19, witness: the trainer whose components expose nothing. *)
Lemma missing_output_is_an_AttributeError_witness :
  BaseStep_call [("data", Channel 7)] bare_trainer =
    (Raise (AttributeError (msg_no_attribute "output")),
     set_component (Some {| outputs := ∅ |}) bare_trainer).
Proof.
  eapply (missing_output_is_an_AttributeError [("data", Channel 7)] bare_trainer
            _ _ [] [] "output").
  - intros k. vm_compute. tauto.
  - intros k Hk Hk'. vm_compute in Hk, Hk'.
    apply list_elem_of_singleton in Hk as ->.
    by apply list_elem_of_singleton in Hk'.
  - reflexivity.
  - reflexivity.
  - reflexivity.
  - intros k Hk. by apply elem_of_nil in Hk.
  - reflexivity.
Defined.

(** X22, witness: the component of the trainer after its call. *)
Lemma component_after_successful_call_witness :
  ∃ component chs,
    BaseStep_component (set_component (Some trainer_component) plain_trainer) =
      (Ok (Some component), set_component (Some trainer_component) plain_trainer) ∧
    Forall2 (λ k ch, outputs component !! k = Some ch)
            (keys (OUTPUT_SPEC
                     (the_class (set_component (Some trainer_component) plain_trainer))))
            chs ∧
    Single (Channel 0) = as_returned chs.
Proof.
  apply (component_after_successful_call [("data", Channel 7)] plain_trainer).
  reflexivity.
Defined.

(** X23, witness: the bindings of the trainer's call. *)
Lemma successful_call_had_exact_bindings_witness :
  (∀ k, k ∈ keys [("data", Channel 7)] ↔
        k ∈ keys (INPUT_SPEC (the_class plain_trainer))) ∧
  (∀ k, k ∈ keys (PARAM_SPEC (the_self plain_trainer)) →
        k ∉ keys [("data", Channel 7)]).
Proof.
  apply (successful_call_had_exact_bindings [("data", Channel 7)] plain_trainer
           (Single (Channel 0))
           (set_component (Some trainer_component) plain_trainer)).
  reflexivity.
Defined.
